(** * Motor state synchronisation and serial protocol engine

    A shallow embedding of [MotorController], [SerialCommunicator] and the
    per-tick [RobotControlApp.update] of [src/Controller/main.py], together
    with the properties of the mode switch, the feedback synchroniser, the
    display smoother and the preset store.

    Conventions of the embedding.
    - Python numbers (the joint positions are [int] at start-up and [float]
      once a preset was loaded or feedback was absorbed) are rationals [Q]:
      arithmetic is exact, so [0.15] is [15/100] and [0.5] is [1/2].
      Copies of a value are compared with [=], computed values with [==].
    - Python lists are [list]s read with stdpp's [!!] and written with
      [<[i:=x]>]; an index that is out of range raises [IndexError], as in
      Python, which is written out in [getitem] and [setitem].
    - A Python [dict] is an association list in insertion order.
    - A method is a computation in the monad [M]: it threads the [World]
      (the [Config] class attributes, the controller object and the preset
      file) and either returns or raises; what was mutated before an
      exception stays mutated.
    - Console output ([print]) and the rate limited feedback log are not
      part of the model. *)

From Stdlib Require Import ZArith QArith Qabs Qround Lqa String Ascii List Bool Lia DecimalString.
From stdpp Require Import base list.
Import ListNotations.

Local Open Scope string_scope.
Local Open Scope Z_scope.

(** ** Python built-ins used by the controller *)

Module Py.

(** [min(a, b)] and [max(a, b)] return the first argument on a tie. *)
Definition min (a b : Q) : Q := if Qle_bool a b then a else b.
Definition max (a b : Q) : Q := if Qle_bool b a then a else b.

(** [a < b] and [a > b] on numbers. *)
Definition lt (a b : Q) : bool := negb (Qle_bool b a).
Definition gt (a b : Q) : bool := lt b a.

(** [int(x)] on a number truncates toward zero. *)
Definition int (x : Q) : Z := Z.quot (Qnum x) (Z.pos (Qden x)).

(** [float(n)] on an integer. *)
Definition float (n : Z) : Q := inject_Z n.

(** [str(n)] on an integer. *)
Definition str (n : Z) : string := NilZero.string_of_int (Z.to_int n).

(** [sep.join(l)]. *)
Fixpoint join (sep : string) (l : list string) : string :=
  match l with
  | [] => ""
  | [x] => x
  | x :: l' => x ++ sep ++ join sep l'
  end.

(** [s.startswith(p)]. *)
Definition startswith (s p : string) : bool := String.prefix p s.

(** [s[n:]]. *)
Fixpoint drop (n : nat) (s : string) : string :=
  match n, s with
  | O, _ => s
  | S n', String _ s' => drop n' s'
  | S _, EmptyString => EmptyString
  end.

(** [s.split(sep)] for a one-character separator: never empty. *)
Fixpoint split (sep : ascii) (s : string) : list string :=
  match s with
  | EmptyString => [EmptyString]
  | String c s' =>
      if Ascii.eqb c sep then EmptyString :: split sep s'
      else match split sep s' with
           | x :: xs => String c x :: xs
           | [] => [String c EmptyString]
           end
  end.

(** White space as [str.strip()] and the numeric constructors see it. *)
Definition is_space (c : ascii) : bool :=
  let n := nat_of_ascii c in
  ((9 <=? n) && (n <=? 13) || (28 <=? n) && (n <=? 32))%nat.

Fixpoint lstrip (s : string) : string :=
  match s with
  | String c s' => if is_space c then lstrip s' else s
  | EmptyString => EmptyString
  end.

Fixpoint rstrip (s : string) : string :=
  match s with
  | EmptyString => EmptyString
  | String c s' =>
      match rstrip s' with
      | EmptyString => if is_space c then EmptyString else String c EmptyString
      | r => String c r
      end
  end.

Definition strip (s : string) : string := rstrip (lstrip s).

Definition digit_of (c : ascii) : option Z :=
  let n := nat_of_ascii c in
  if ((48 <=? n) && (n <=? 57))%nat then Some (Z.of_nat n - 48) else None.

(** Reads the longest prefix of decimal digits: its value on top of
    [acc], how many digits were read, and the rest of the string. *)
Fixpoint read_digits (s : string) (acc : Z) (n : nat) : Z * nat * string :=
  match s with
  | String c s' =>
      match digit_of c with
      | Some d => read_digits s' (10 * acc + d) (S n)
      | None => (acc, n, s)
      end
  | EmptyString => (acc, n, s)
  end.

Definition read_sign (s : string) : bool * string :=
  match s with
  | String "-" s' => (true, s')
  | String "+" s' => (false, s')
  | _ => (false, s)
  end.

(** [int(s)] on a string, for plain decimal numerals: optional white
    space around an optional sign and at least one digit.  [None] is
    [ValueError].  (Digit-group underscores are outside the model.) *)
Definition int_of_str (s : string) : option Z :=
  let '(neg, s1) := read_sign (strip s) in
  let '(v, n, rest) := read_digits s1 0 0 in
  match n, rest with
  | S _, EmptyString => Some (if neg then - v else v)
  | _, _ => None
  end.

(** [float(s)] on a string, for plain decimal numerals: optional white
    space around an optional sign, digits and an optional fractional
    part, with at least one digit.  [None] is [ValueError].  (Exponents,
    [inf], [nan] and digit-group underscores are outside the model.) *)
Definition float_of_str (s : string) : option Q :=
  let '(neg, s1) := read_sign (strip s) in
  let '(ip, ni, s2) := read_digits s1 0 0 in
  let '(fp, nf, s3) :=
    match s2 with
    | String "." s' => read_digits s' 0 0
    | _ => (0, O, s2)
    end in
  match (ni + nf)%nat, s3 with
  | S _, EmptyString =>
      let v := Qmake (ip * 10 ^ Z.of_nat nf + fp) (Z.to_pos (10 ^ Z.of_nat nf)) in
      Some (if neg then Qopp v else v)
  | _, _ => None
  end.

End Py.

(** ** Data model *)

Record MotorConfig := {
  index : Z;
  name : string;
  min_val : Z;
  max_val : Z;
  default_pos : Z
}.

Inductive MotorState := IDLE | MOVING | ERROR | AT_LIMIT.

Definition MotorState_eqb (a b : MotorState) : bool :=
  match a, b with
  | IDLE, IDLE | MOVING, MOVING | ERROR, ERROR | AT_LIMIT, AT_LIMIT => true
  | _, _ => false
  end.

(** A [dict] with string keys, in insertion order. *)
Definition dict (V : Type) : Type := list (string * V).

Module Dict.
Section Ops.
Context {V : Type}.

(** [d[k]], [None] when the key is absent. *)
Fixpoint get (d : dict V) (k : string) : option V :=
  match d with
  | [] => None
  | (k', v) :: d' => if String.eqb k' k then Some v else get d' k
  end.

(** [k in d]. *)
Definition contains (d : dict V) (k : string) : bool :=
  match get d k with Some _ => true | None => false end.

(** [d[k] = v]: an existing key keeps its place, a new one goes last. *)
Fixpoint set (d : dict V) (k : string) (v : V) : dict V :=
  match d with
  | [] => [(k, v)]
  | (k', v') :: d' =>
      if String.eqb k' k then (k, v) :: d' else (k', v') :: set d' k v
  end.
End Ops.
End Dict.

(** What [open('custom_presets.json')] followed by [json.load] finds: no
    file, text that is not JSON, or the name to vector mapping that
    [json.dump(self.custom_presets)] writes. *)
Inductive json_file :=
| NoFile
| NotJson
| JsonObject (presets : dict (list Z)).

Inductive exn := IndexError | ValueError | FileNotFoundError | JSONDecodeError.

Inductive result (A : Type) :=
| Ok (a : A)
| Raise (e : exn).
Arguments Ok {A} a.
Arguments Raise {A} e.

(** The class attributes of [Config] that are assigned at run time. *)
Record Config := {
  PASSIVITY_MODE : bool;
  DEV_MODE : bool
}.

(** [arduino_out] is what [arduino.write] was given, oldest first. *)
Record SerialCommunicator := {
  is_connected : bool;
  receive_queue : list string;
  arduino_out : list string
}.

(** [velocities], [last_feedback_log_time], [feedback_log_interval] are
    written in [__init__] and read by the console log only; they are left
    out.  [ui_smoothness] is never assigned again and is the constant
    [ui_smoothness] below. *)
Record MotorController := {
  motors : list MotorConfig;
  current_positions : list Q;
  target_positions : list Q;
  motor_states : list MotorState;
  all_torque_enabled : bool;
  torque_enabled : list bool;
  is_passivity_first : bool;
  passivity_initialized_motors : list bool;
  display_positions : list Q;
  default_preset : list Z;
  custom_presets : dict (list Z);
  serial : SerialCommunicator;
  waiting_for_positions : bool;
  passivity_presets : list Z
}.

Record World := {
  config : Config;
  self : MotorController;
  custom_presets_json : json_file
}.

(** *** Field updates *)

Definition set_PASSIVITY_MODE (b : bool) (w : World) : World :=
  {| config := {| PASSIVITY_MODE := b; DEV_MODE := DEV_MODE (config w) |};
     self := self w; custom_presets_json := custom_presets_json w |}.

Definition set_custom_presets_json (f : json_file) (w : World) : World :=
  {| config := config w; self := self w; custom_presets_json := f |}.

Definition set_self (c : MotorController) (w : World) : World :=
  {| config := config w; self := c; custom_presets_json := custom_presets_json w |}.

Definition set_receive_queue (q : list string) (s : SerialCommunicator) :=
  {| is_connected := is_connected s; receive_queue := q; arduino_out := arduino_out s |}.

Definition set_arduino_out (o : list string) (s : SerialCommunicator) :=
  {| is_connected := is_connected s; receive_queue := receive_queue s; arduino_out := o |}.

Definition set_current_positions (v : list Q) (c : MotorController) :=
  {| motors := motors c; current_positions := v;
     target_positions := target_positions c; motor_states := motor_states c;
     all_torque_enabled := all_torque_enabled c; torque_enabled := torque_enabled c;
     is_passivity_first := is_passivity_first c;
     passivity_initialized_motors := passivity_initialized_motors c;
     display_positions := display_positions c; default_preset := default_preset c;
     custom_presets := custom_presets c; serial := serial c;
     waiting_for_positions := waiting_for_positions c;
     passivity_presets := passivity_presets c |}.

Definition set_target_positions (v : list Q) (c : MotorController) :=
  {| motors := motors c; current_positions := current_positions c;
     target_positions := v; motor_states := motor_states c;
     all_torque_enabled := all_torque_enabled c; torque_enabled := torque_enabled c;
     is_passivity_first := is_passivity_first c;
     passivity_initialized_motors := passivity_initialized_motors c;
     display_positions := display_positions c; default_preset := default_preset c;
     custom_presets := custom_presets c; serial := serial c;
     waiting_for_positions := waiting_for_positions c;
     passivity_presets := passivity_presets c |}.

Definition set_motor_states (v : list MotorState) (c : MotorController) :=
  {| motors := motors c; current_positions := current_positions c;
     target_positions := target_positions c; motor_states := v;
     all_torque_enabled := all_torque_enabled c; torque_enabled := torque_enabled c;
     is_passivity_first := is_passivity_first c;
     passivity_initialized_motors := passivity_initialized_motors c;
     display_positions := display_positions c; default_preset := default_preset c;
     custom_presets := custom_presets c; serial := serial c;
     waiting_for_positions := waiting_for_positions c;
     passivity_presets := passivity_presets c |}.

Definition set_all_torque_enabled (v : bool) (c : MotorController) :=
  {| motors := motors c; current_positions := current_positions c;
     target_positions := target_positions c; motor_states := motor_states c;
     all_torque_enabled := v; torque_enabled := torque_enabled c;
     is_passivity_first := is_passivity_first c;
     passivity_initialized_motors := passivity_initialized_motors c;
     display_positions := display_positions c; default_preset := default_preset c;
     custom_presets := custom_presets c; serial := serial c;
     waiting_for_positions := waiting_for_positions c;
     passivity_presets := passivity_presets c |}.

Definition set_torque_enabled (v : list bool) (c : MotorController) :=
  {| motors := motors c; current_positions := current_positions c;
     target_positions := target_positions c; motor_states := motor_states c;
     all_torque_enabled := all_torque_enabled c; torque_enabled := v;
     is_passivity_first := is_passivity_first c;
     passivity_initialized_motors := passivity_initialized_motors c;
     display_positions := display_positions c; default_preset := default_preset c;
     custom_presets := custom_presets c; serial := serial c;
     waiting_for_positions := waiting_for_positions c;
     passivity_presets := passivity_presets c |}.

Definition set_is_passivity_first (v : bool) (c : MotorController) :=
  {| motors := motors c; current_positions := current_positions c;
     target_positions := target_positions c; motor_states := motor_states c;
     all_torque_enabled := all_torque_enabled c; torque_enabled := torque_enabled c;
     is_passivity_first := v;
     passivity_initialized_motors := passivity_initialized_motors c;
     display_positions := display_positions c; default_preset := default_preset c;
     custom_presets := custom_presets c; serial := serial c;
     waiting_for_positions := waiting_for_positions c;
     passivity_presets := passivity_presets c |}.

Definition set_passivity_initialized_motors (v : list bool) (c : MotorController) :=
  {| motors := motors c; current_positions := current_positions c;
     target_positions := target_positions c; motor_states := motor_states c;
     all_torque_enabled := all_torque_enabled c; torque_enabled := torque_enabled c;
     is_passivity_first := is_passivity_first c;
     passivity_initialized_motors := v;
     display_positions := display_positions c; default_preset := default_preset c;
     custom_presets := custom_presets c; serial := serial c;
     waiting_for_positions := waiting_for_positions c;
     passivity_presets := passivity_presets c |}.

Definition set_display_positions (v : list Q) (c : MotorController) :=
  {| motors := motors c; current_positions := current_positions c;
     target_positions := target_positions c; motor_states := motor_states c;
     all_torque_enabled := all_torque_enabled c; torque_enabled := torque_enabled c;
     is_passivity_first := is_passivity_first c;
     passivity_initialized_motors := passivity_initialized_motors c;
     display_positions := v; default_preset := default_preset c;
     custom_presets := custom_presets c; serial := serial c;
     waiting_for_positions := waiting_for_positions c;
     passivity_presets := passivity_presets c |}.

Definition set_custom_presets (v : dict (list Z)) (c : MotorController) :=
  {| motors := motors c; current_positions := current_positions c;
     target_positions := target_positions c; motor_states := motor_states c;
     all_torque_enabled := all_torque_enabled c; torque_enabled := torque_enabled c;
     is_passivity_first := is_passivity_first c;
     passivity_initialized_motors := passivity_initialized_motors c;
     display_positions := display_positions c; default_preset := default_preset c;
     custom_presets := v; serial := serial c;
     waiting_for_positions := waiting_for_positions c;
     passivity_presets := passivity_presets c |}.

Definition set_serial (v : SerialCommunicator) (c : MotorController) :=
  {| motors := motors c; current_positions := current_positions c;
     target_positions := target_positions c; motor_states := motor_states c;
     all_torque_enabled := all_torque_enabled c; torque_enabled := torque_enabled c;
     is_passivity_first := is_passivity_first c;
     passivity_initialized_motors := passivity_initialized_motors c;
     display_positions := display_positions c; default_preset := default_preset c;
     custom_presets := custom_presets c; serial := v;
     waiting_for_positions := waiting_for_positions c;
     passivity_presets := passivity_presets c |}.

Definition set_waiting_for_positions (v : bool) (c : MotorController) :=
  {| motors := motors c; current_positions := current_positions c;
     target_positions := target_positions c; motor_states := motor_states c;
     all_torque_enabled := all_torque_enabled c; torque_enabled := torque_enabled c;
     is_passivity_first := is_passivity_first c;
     passivity_initialized_motors := passivity_initialized_motors c;
     display_positions := display_positions c; default_preset := default_preset c;
     custom_presets := custom_presets c; serial := serial c;
     waiting_for_positions := v;
     passivity_presets := passivity_presets c |}.

Definition set_passivity_presets (v : list Z) (c : MotorController) :=
  {| motors := motors c; current_positions := current_positions c;
     target_positions := target_positions c; motor_states := motor_states c;
     all_torque_enabled := all_torque_enabled c; torque_enabled := torque_enabled c;
     is_passivity_first := is_passivity_first c;
     passivity_initialized_motors := passivity_initialized_motors c;
     display_positions := display_positions c; default_preset := default_preset c;
     custom_presets := custom_presets c; serial := serial c;
     waiting_for_positions := waiting_for_positions c;
     passivity_presets := v |}.

(** ** The monad of methods: state and exceptions *)

Definition M (A : Type) : Type := World -> result A * World.

Definition ret {A} (a : A) : M A := fun w => (Ok a, w).

Definition raise {A} (e : exn) : M A := fun w => (Raise e, w).

Definition bind {A B} (m : M A) (k : A -> M B) : M B :=
  fun w =>
    match m w with
    | (Ok a, w') => k a w'
    | (Raise e, w') => (Raise e, w')
    end.

(** [try: m  except Exception as e: h e]. *)
Definition try_except {A} (m : M A) (h : exn -> M A) : M A :=
  fun w =>
    match m w with
    | (Ok a, w') => (Ok a, w')
    | (Raise e, w') => h e w'
    end.

Declare Scope py_scope.
Delimit Scope py_scope with py.
Notation "x <- m ;; k" := (bind m (fun x => k))
  (at level 100, m at next level, right associativity) : py_scope.
Notation "m ;; k" := (bind m (fun _ => k))
  (at level 100, right associativity) : py_scope.
Local Open Scope py_scope.

(** Reading an attribute of [self], and assigning to one. *)
Definition attr {A} (f : MotorController -> A) : M A :=
  fun w => (Ok (f (self w)), w).

Definition assign (upd : MotorController -> MotorController) : M unit :=
  fun w => (Ok tt, set_self (upd (self w)) w).

Definition passivity_mode : M bool :=
  fun w => (Ok (PASSIVITY_MODE (config w)), w).

(** A list attribute of [self], to be indexed. *)
Record list_attr (A : Type) := {
  lget : MotorController -> list A;
  lset : list A -> MotorController -> MotorController
}.
Arguments lget {A} _ _.
Arguments lset {A} _ _ _.

Definition Current := {| lget := current_positions; lset := set_current_positions |}.
Definition Target := {| lget := target_positions; lset := set_target_positions |}.
Definition Display := {| lget := display_positions; lset := set_display_positions |}.
Definition States := {| lget := motor_states; lset := set_motor_states |}.
Definition Torque := {| lget := torque_enabled; lset := set_torque_enabled |}.
Definition Initialized :=
  {| lget := passivity_initialized_motors; lset := set_passivity_initialized_motors |}.

(** [l[i]] on a local list, for [i >= 0]. *)
Definition item {A} (l : list A) (i : nat) : M A :=
  match l !! i with
  | Some x => ret x
  | None => raise IndexError
  end.

(** [self.f[i]] and [self.f[i] = v], for [i >= 0]. *)
Definition getitem {A} (f : list_attr A) (i : nat) : M A :=
  l <- attr (lget f) ;; item l i.

Definition setitem {A} (f : list_attr A) (i : nat) (v : A) : M unit :=
  l <- attr (lget f) ;;
  if (i <? length l)%nat then assign (lset f (<[i:=v]> l)) else raise IndexError.

(** [for x in l: body x]. *)
Fixpoint for_each {A} (l : list A) (body : A -> M unit) : M unit :=
  match l with
  | [] => ret tt
  | x :: l' => body x ;; for_each l' body
  end.

(** [for i in range(n): body i]. *)
Definition for_range (n : nat) (body : nat -> M unit) : M unit :=
  for_each (seq 0 n) body.

(** [l[i]] for a Python index: a negative [i] counts from the end. *)
Definition py_index (len : nat) (i : Z) : option nat :=
  if (0 <=? i) && (i <? Z.of_nat len) then Some (Z.to_nat i)
  else if (- Z.of_nat len <=? i) && (i <? 0) then Some (Z.to_nat (Z.of_nat len + i))
  else None.

(** ** SerialCommunicator *)

(** [SerialCommunicator.__init__]; [port_ok] tells whether
    [serial.Serial(port, baud_rate)] opens the port in [_connect]. *)
Definition SerialCommunicator__init__ (cfg : Config) (port_ok : bool) : SerialCommunicator :=
  {| is_connected := negb (DEV_MODE cfg) && port_ok;
     receive_queue := [];
     arduino_out := [] |}.

(** One round of [_receive_loop], the reader thread, on a line [raw] that
    [readline().decode('utf-8')] returned. *)
Definition _receive_loop (raw : string) : M unit :=
  s <- attr serial ;;
  if is_connected s then
    match Py.strip raw with
    | EmptyString => ret tt
    | data => assign (set_serial (set_receive_queue (receive_queue s ++ [data]) s))
    end
  else ret tt.

(** [SerialCommunicator.send]; the open port takes every write. *)
Definition send (command : string) : M bool :=
  fun w =>
    if DEV_MODE (config w) then (Ok false, w)
    else
      let s := serial (self w) in
      if negb (is_connected s) then (Ok false, w)
      else (Ok true,
            set_self (set_serial (set_arduino_out (arduino_out s ++ [command]) s) (self w)) w).

(** [SerialCommunicator.get_received_data]. *)
Definition get_received_data : M (option string) :=
  fun w =>
    if DEV_MODE (config w) then (Ok None, w)
    else
      let s := serial (self w) in
      match receive_queue s with
      | [] => (Ok None, w)
      | data :: q => (Ok (Some data), set_self (set_serial (set_receive_queue q s) (self w)) w)
      end.

(** ** MotorController *)

Definition motors_table : list MotorConfig :=
  [ {| index := 0; name := "Base"; min_val := 0; max_val := 1023; default_pos := 512 |};
    {| index := 1; name := "Shoulder"; min_val := 180; max_val := 845; default_pos := 512 |};
    {| index := 2; name := "Upper_Arm"; min_val := 165; max_val := 1023; default_pos := 380 |};
    {| index := 3; name := "Elbow"; min_val := 512; max_val := 1023; default_pos := 800 |};
    {| index := 4; name := "forearm"; min_val := 512; max_val := 1023; default_pos := 700 |};
    {| index := 5; name := "Wrist"; min_val := 0; max_val := 1023; default_pos := 512 |};
    {| index := 6; name := "Hand"; min_val := 370; max_val := 695; default_pos := 512 |} ].

Definition ui_smoothness : Q := 15 # 100.

Definition builtin_custom_presets : dict (list Z) :=
  [ ("Custom 1", [512; 512; 380; 800; 700; 512; 512]);
    ("Custom 2", [512; 512; 380; 800; 700; 512; 512]);
    ("Custom 3", [512; 512; 380; 800; 700; 512; 512]);
    ("Custom 4", [512; 512; 380; 800; 700; 512; 512]) ].

(** [json.load(open('custom_presets.json', 'r'))]. *)
Definition json_load (f : json_file) : result (dict (list Z)) :=
  match f with
  | NoFile => Raise FileNotFoundError
  | NotJson => Raise JSONDecodeError
  | JsonObject presets => Ok presets
  end.

(** [MotorController._load_custom_presets]: only [FileNotFoundError] is
    handled. *)
Definition _load_custom_presets (f : json_file) : result (dict (list Z)) :=
  match json_load f with
  | Ok presets =>
      if (4 <? length presets)%nat then Ok (firstn 4 presets) else Ok presets
  | Raise FileNotFoundError => Ok builtin_custom_presets
  | Raise e => Raise e
  end.

(** [MotorController.__init__] over a joint table ([motors_table] in the
    source), with the [Config] attributes and the preset file as found at
    start-up. *)
Definition MotorController__init__ (table : list MotorConfig) (cfg : Config)
    (port_ok : bool) (f : json_file) : result World :=
  match _load_custom_presets f with
  | Raise e => Raise e
  | Ok presets =>
      let defaults := map default_pos table in
      let c :=
        {| motors := table;
           current_positions := map Py.float defaults;
           target_positions := map Py.float defaults;
           motor_states := replicate (length table) IDLE;
           all_torque_enabled := true;
           torque_enabled := replicate (length table) true;
           is_passivity_first := false;
           passivity_initialized_motors := replicate 7 false;
           display_positions := map Py.float defaults;
           default_preset := defaults;
           custom_presets := presets;
           serial := SerialCommunicator__init__ cfg port_ok;
           waiting_for_positions := false;
           passivity_presets := [] |} in
      let w := {| config := cfg; self := c; custom_presets_json := f |} in
      if negb (PASSIVITY_MODE cfg) then Ok (snd (send "2,0,0,0,0,0,0,0*" w)) else Ok w
  end.

(** [Config] as the class body sets it, with the mode chosen in
    [select_mode]. *)
Definition Config_at_startup (dev_mode : bool) : Config :=
  {| PASSIVITY_MODE := false; DEV_MODE := dev_mode |}.

(** The command strings: [f"0,{','.join(map(str, positions))}*"] and
    [f"1,{','.join(map(str, torque_values))}*"]. *)
Definition control_command (positions : list Z) : string :=
  "0," ++ Py.join "," (map Py.str positions) ++ "*".

Definition torque_command (flags : list bool) : string :=
  let torque_values := map (fun enabled : bool => if enabled then 1 else 0) flags in
  "1," ++ Py.join "," (map Py.str torque_values) ++ "*".

(** [MotorController.send_control_command]. *)
Definition send_control_command : M unit :=
  passivity <- passivity_mode ;;
  if passivity then ret tt
  else
    targets <- attr target_positions ;;
    let positions := map Py.int targets in
    send (control_command positions) ;; ret tt.

(** [MotorController.send_torque_command]. *)
Definition send_torque_command : M unit :=
  flags <- attr torque_enabled ;;
  send (torque_command flags) ;; ret tt.

Definition preset_name_of (slot_index : Z) : string :=
  "Custom " ++ Py.str (slot_index + 1).

(** [MotorController.load_default_preset]. *)
Definition load_default_preset : M bool :=
  passivity <- passivity_mode ;;
  if passivity then ret false
  else
    preset <- attr default_preset ;;
    assign (set_target_positions (map Py.float preset)) ;;
    send_control_command ;;
    ret true.

(** [MotorController.load_custom_preset]. *)
Definition load_custom_preset (slot_index : Z) : M bool :=
  passivity <- passivity_mode ;;
  if passivity then ret false
  else if (0 <=? slot_index) && (slot_index <? 4) then
    presets <- attr custom_presets ;;
    match Dict.get presets (preset_name_of slot_index) with
    | Some preset =>
        assign (set_target_positions (map Py.float preset)) ;;
        send_control_command ;;
        ret true
    | None => ret false
    end
  else ret false.

(** [MotorController.toggle_torque]. *)
Definition toggle_torque (motor_index : Z) : M unit :=
  flags <- attr torque_enabled ;;
  match py_index (length flags) motor_index with
  | None => raise IndexError
  | Some i =>
      enabled <- getitem Torque i ;;
      setitem Torque i (negb enabled) ;;
      send_torque_command ;;
      ms <- attr motors ;;
      match py_index (length ms) motor_index with
      | None => raise IndexError
      | Some _ => ret tt
      end
  end.

(** [MotorController.toggle_all_torque]. *)
Definition toggle_all_torque : M bool :=
  enabled <- attr all_torque_enabled ;;
  let new_state := negb enabled in
  assign (set_all_torque_enabled new_state) ;;
  ms <- attr motors ;;
  assign (set_torque_enabled (replicate (length ms) new_state)) ;;
  send_torque_command ;;
  (fun w => (Ok tt, set_PASSIVITY_MODE (negb new_state) w)) ;;
  passivity <- passivity_mode ;;
  (if passivity then
     assign (set_is_passivity_first true) ;;
     assign (set_passivity_initialized_motors (replicate 7 false)) ;;
     send "2,1,0,0,0,0,0,0*"
   else
     assign (set_is_passivity_first false) ;;
     assign (set_passivity_initialized_motors (replicate 7 false)) ;;
     send "2,0,0,0,0,0,0,0*") ;;
  ret new_state.

(** [MotorController.update_target]. *)
Definition update_target (motor_index : Z) (direction : string) (step_size : Z) : M bool :=
  passivity <- passivity_mode ;;
  if passivity then ret false
  else
    ms <- attr motors ;;
    if negb ((0 <=? motor_index) && (motor_index <? Z.of_nat (length ms))) then ret false
    else
      let i := Z.to_nat motor_index in
      motor <- item ms i ;;
      old_target <- getitem Target i ;;
      let new_target :=
        if String.eqb direction "increase"
        then Py.min (Py.float (max_val motor)) (old_target + Py.float step_size)%Q
        else Py.max (Py.float (min_val motor)) (old_target - Py.float step_size)%Q in
      let at_end :=
        Qeq_bool new_target (Py.float (max_val motor))
        || Qeq_bool new_target (Py.float (min_val motor)) in
      if Qeq_bool new_target old_target then
        (if at_end then setitem States i AT_LIMIT else ret tt) ;;
        ret false
      else
        setitem Target i new_target ;;
        (if at_end then setitem States i AT_LIMIT else setitem States i MOVING) ;;
        ret true.

(** The body of the loop of [update_positions] for joint [i]. *)
Definition ease_joint (i : nat) : M unit :=
  t <- getitem Target i ;;
  d <- getitem Display i ;;
  let diff := (t - d)%Q in
  (if Py.gt (Qabs diff) (1 # 2) then
     d0 <- getitem Display i ;;
     setitem Display i (d0 + diff * ui_smoothness)%Q
   else
     t0 <- getitem Target i ;;
     setitem Display i t0) ;;
  d1 <- getitem Display i ;;
  t1 <- getitem Target i ;;
  if Py.lt (Qabs (d1 - t1)) 2 then
    s <- getitem States i ;;
    if MotorState_eqb s MOVING then setitem States i IDLE else ret tt
  else
    s <- getitem States i ;;
    if negb (MotorState_eqb s AT_LIMIT) then setitem States i MOVING else ret tt.

(** [MotorController.update_positions], the display smoother. *)
Definition update_positions : M unit :=
  ms <- attr motors ;;
  for_range (length ms) ease_joint ;;
  d <- attr display_positions ;;
  assign (set_current_positions d).

(** [while self.serial.get_received_data() is not None: pass], with one
    round more than the queue is long so that it runs until [None]. *)
Fixpoint drain (rounds : nat) : M unit :=
  match rounds with
  | O => ret tt
  | S n =>
      data <- get_received_data ;;
      match data with
      | None => ret tt
      | Some _ => drain n
      end
  end.

Definition drain_queue : M unit :=
  s <- attr serial ;;
  drain (S (length (receive_queue s))).

(** [[int(p) for p in parts]]: [None] when a field is not an integer
    numeral, where the comprehension raises [ValueError]. *)
Fixpoint ints_of (parts : list string) : option (list Z) :=
  match parts with
  | [] => Some []
  | p :: parts' =>
      match Py.int_of_str p with
      | None => None
      | Some v =>
          match ints_of parts' with
          | None => None
          | Some vs => Some (v :: vs)
          end
      end
  end.

(** The parsing loop of the feedback branch over the indices [idx]:
    [float(parts[i])] for each, given up at the first [ValueError] or
    [IndexError] ([parse_success = False]). *)
Fixpoint parse_floats (parts : list string) (idx : list nat) : option (list Q) :=
  match idx with
  | [] => Some []
  | i :: idx' =>
      match parts !! i with
      | None => None
      | Some p =>
          match Py.float_of_str p with
          | None => None
          | Some new_pos =>
              match parse_floats parts idx' with
              | None => None
              | Some new_positions => Some (new_pos :: new_positions)
              end
          end
      end
  end.

(** The body of the synchronisation loop of [process_feedback] for
    joint [i]. *)
Definition sync_joint (new_positions : list Q) (i : nat) : M unit :=
  initialized <- getitem Initialized i ;;
  (if negb initialized then
     p <- item new_positions i ;;
     setitem Target i p ;;
     p <- item new_positions i ;;
     setitem Display i p ;;
     p <- item new_positions i ;;
     setitem Current i p ;;
     setitem Initialized i true
   else
     p <- item new_positions i ;;
     setitem Target i p) ;;
  setitem States i IDLE.

(** The [try] block of [process_feedback] on a non-empty line [data]. *)
Definition dispatch (data : string) : M unit :=
  if Py.startswith data "Positions:" then
    match ints_of (Py.split "," (Py.drop (String.length "Positions:") data)) with
    | None => raise ValueError
    | Some positions =>
        waiting <- attr waiting_for_positions ;;
        if waiting then assign (set_passivity_presets positions) else ret tt
    end
  else if Py.startswith data "Feedback:" then
    passivity <- passivity_mode ;;
    if negb passivity then ret tt
    else
      let parts := Py.split "," (Py.drop (String.length "Feedback:") data) in
      ms <- attr motors ;;
      if (length parts <? length ms)%nat then ret tt
      else
        match parse_floats parts (seq 0 (length ms)) with
        | None => ret tt
        | Some new_positions =>
            for_range (length ms) (sync_joint new_positions) ;;
            first <- attr is_passivity_first ;;
            flags <- attr passivity_initialized_motors ;;
            if first && forallb id flags
            then assign (set_is_passivity_first false)
            else ret tt
        end
  else ret tt.

(** [MotorController.process_feedback]. *)
Definition process_feedback : M unit :=
  passivity <- passivity_mode ;;
  waiting <- attr waiting_for_positions ;;
  if negb passivity && negb waiting then drain_queue
  else
    data <- get_received_data ;;
    match data with
    | Some (String _ _ as line) => try_except (dispatch line) (fun _ => ret tt)
    | _ => ret tt
    end.

(** [json.dump(self.custom_presets, open('custom_presets.json', 'w'))];
    the storage is writable. *)
Definition json_dump : M unit :=
  fun w => (Ok tt, set_custom_presets_json (JsonObject (custom_presets (self w))) w).

(** The polling loop of [save_custom_preset] in passivity mode.  [clock]
    has one entry for each round that starts before the one second
    deadline: the raw lines the reader thread took from the port since the
    round before.  When [clock] is used up the deadline has passed.
    ([int(p)] on the integers of the received report is the identity.) *)
Fixpoint await_positions (preset_name : string) (clock : list (list string)) : M bool :=
  match clock with
  | [] =>
      assign (set_waiting_for_positions false) ;;
      ret false
  | arrived :: clock' =>
      for_each arrived _receive_loop ;;
      process_feedback ;;
      received <- attr passivity_presets ;;
      match received with
      | _ :: _ =>
          presets <- attr custom_presets ;;
          assign (set_custom_presets (Dict.set presets preset_name received)) ;;
          json_dump ;;
          assign (set_passivity_presets []) ;;
          assign (set_waiting_for_positions false) ;;
          ret true
      | [] => await_positions preset_name clock'
      end
  end.

(** [MotorController.save_custom_preset]. *)
Definition save_custom_preset (slot_index : Z) (clock : list (list string)) : M bool :=
  if (0 <=? slot_index) && (slot_index <? 4) then
    let preset_name := preset_name_of slot_index in
    passivity <- passivity_mode ;;
    if negb passivity then
      targets <- attr target_positions ;;
      presets <- attr custom_presets ;;
      assign (set_custom_presets (Dict.set presets preset_name (map Py.int targets))) ;;
      json_dump ;;
      ret true
    else
      assign (set_waiting_for_positions true) ;;
      assign (set_passivity_presets []) ;;
      send "3,0,0,0,0,0,0,0*" ;;
      await_positions preset_name clock
  else ret false.

(** ** RobotControlApp *)

(** [RobotControlApp.update], one iteration of the main loop (the session
    log only reads [current_positions]). *)
Definition update : M unit :=
  process_feedback ;;
  update_positions.

(** Running a method: the world it leaves, and what it returns. *)
Definition exec {A} (m : M A) (w : World) : World := snd (m w).
Definition eval {A} (m : M A) (w : World) : result A := fst (m w).

(** ** Vocabulary of the properties *)

(** Joint [i] as the five per-joint lists of the controller show it. *)
Record Joint := {
  target : Q;
  display : Q;
  current : Q;
  mode_state : MotorState;
  initialized : bool
}.

Definition joint (c : MotorController) (i : nat) : option Joint :=
  match target_positions c !! i, display_positions c !! i, current_positions c !! i,
        motor_states c !! i, passivity_initialized_motors c !! i with
  | Some t, Some d, Some cu, Some s, Some b =>
      Some {| target := t; display := d; current := cu; mode_state := s; initialized := b |}
  | _, _, _, _, _ => None
  end.

(** Every per-joint list has an entry for every joint of the table. *)
Definition fits (c : MotorController) : Prop :=
  let n := length (motors c) in
  (n <= length (target_positions c) /\ n <= length (display_positions c) /\
   n <= length (current_positions c) /\ n <= length (motor_states c) /\
   n <= length (passivity_initialized_motors c))%nat.

(** [w] with the five per-joint lists of [c']. *)
Definition set_joints (c' : MotorController) (w : World) : World :=
  set_self
    (set_target_positions (target_positions c')
       (set_display_positions (display_positions c')
          (set_current_positions (current_positions c')
             (set_motor_states (motor_states c')
                (set_passivity_initialized_motors (passivity_initialized_motors c')
                   (self w)))))) w.

(** [w'] differs from [w] in the per-joint lists at most. *)
Definition only_joints (w w' : World) : Prop := w' = set_joints (self w') w.

(** The fields of a line that starts with ["Feedback:"]. *)
Definition feedback_fields (line : string) : option (list string) :=
  if Py.startswith line "Feedback:"
  then Some (Py.split "," (Py.drop (String.length "Feedback:") line))
  else None.

(** The vector that the feedback branch of [process_feedback] decodes
    from [line] for [n] joints, if it accepts the line. *)
Definition feedback_report (n : nat) (line : string) : option (list Q) :=
  match feedback_fields line with
  | Some parts =>
      if (length parts <? n)%nat then None else parse_floats parts (seq 0 n)
  | None => None
  end.


(** What [sync_joint] does to a joint on the report [r]. *)
Definition absorb (r : Q) (x : Joint) : Joint :=
  if initialized x then
    {| target := r; display := display x; current := current x;
       mode_state := IDLE; initialized := true |}
  else
    {| target := r; display := r; current := r;
       mode_state := IDLE; initialized := true |}.

(** What [ease_joint] does to the displayed position and to the state. *)
Definition eased (t d : Q) : Q :=
  if Py.gt (Qabs (t - d)) (1 # 2) then (d + (t - d) * ui_smoothness)%Q else t.

Definition settled (t d : Q) (s : MotorState) : MotorState :=
  if Py.lt (Qabs (d - t)) 2 then
    if MotorState_eqb s MOVING then IDLE else s
  else
    if negb (MotorState_eqb s AT_LIMIT) then MOVING else s.

Definition ease (x : Joint) : Joint :=
  let d := eased (target x) (display x) in
  {| target := target x; display := d; current := current x;
     mode_state := settled (target x) d (mode_state x);
     initialized := initialized x |}.

(** A method leaves the observation [obs] of the world as it was, whether
    it returns or raises. *)
Definition keeps {X A} (obs : World -> X) (m : M A) : Prop :=
  forall w, obs (snd (m w)) = obs w.

(** [body i] acts on joint [i] alone, as [F i], for the joints in [P]. *)
Definition acts_on (P : nat -> Prop) (body : nat -> M unit) (F : nat -> Joint -> Joint) : Prop :=
  forall i w x, P i -> joint (self w) i = Some x ->
    exists w', body i w = (Ok tt, w') /\ only_joints w w' /\
      joint (self w') i = Some (F i x) /\
      forall j, j <> i -> joint (self w') j = joint (self w) j.

(** The link hands commands to the port. *)
Definition link_up (w : World) : bool :=
  negb (DEV_MODE (config w)) && is_connected (serial (self w)).

(** The world after [serial.send(command)]. *)
Definition written (command : string) (w : World) : World := snd (send command w).

(** Passivity mode is on exactly when the global torque flag is off. *)
Definition mode_inv (w : World) : Prop :=
  PASSIVITY_MODE (config w) = negb (all_torque_enabled (self w)).

Definition mode_flags (w : World) : bool * bool :=
  (PASSIVITY_MODE (config w), all_torque_enabled (self w)).

(** The per-joint lists that make up the joint states. *)
Definition joint_lists (w : World) :=
  (target_positions (self w), display_positions (self w), current_positions (self w),
   motor_states (self w), passivity_initialized_motors (self w)).



(** The target of joint [i] lies in the range of its configuration. *)
Definition target_in_range (c : MotorController) (i : nat) : Prop :=
  exists m t, motors c !! i = Some m /\ target_positions c !! i = Some t /\
    (inject_Z (min_val m) <= t /\ t <= inject_Z (max_val m))%Q.

(** The worlds after each call of a sequence of [update_target] calls. *)
Fixpoint jog (calls : list (Z * string * Z)) (w : World) : list World :=
  match calls with
  | [] => []
  | (motor_index, direction, step_size) :: calls' =>
      let w' := exec (update_target motor_index direction step_size) w in
      w' :: jog calls' w'
  end.

(** What the operator, the reader thread and the main loop can do. *)
Inductive step : World -> World -> Prop :=
| step_receive raw w : step w (exec (_receive_loop raw) w)
| step_toggle_all w : step w (exec toggle_all_torque w)
| step_toggle motor_index w : step w (exec (toggle_torque motor_index) w)
| step_jog motor_index direction step_size w :
    step w (exec (update_target motor_index direction step_size) w)
| step_send w : step w (exec send_control_command w)
| step_load_default w : step w (exec load_default_preset w)
| step_load_custom slot w : step w (exec (load_custom_preset slot) w)
| step_save slot clock w : step w (exec (save_custom_preset slot clock) w)
| step_tick w : step w (exec update w).

Inductive reachable (w0 : World) : World -> Prop :=
| reach_start : reachable w0 w0
| reach_step w w' : reachable w0 w -> step w w' -> reachable w0 w'.

(** What one round of [update_positions] does to a joint: [ease], and
    [current_positions] becomes a copy of [display_positions]. *)
Definition tick (x : Joint) : Joint :=
  let y := ease x in
  {| target := target y; display := display y; current := display y;
     mode_state := mode_state y; initialized := initialized y |}.

(** ** Concrete worlds *)

(** The world that [MotorController.__init__] builds in production mode
    with the port open and no preset file. *)
Definition power_on : World :=
  {| config := Config_at_startup false;
     self :=
       {| motors := motors_table;
          current_positions := [512; 512; 380; 800; 700; 512; 512]%Q;
          target_positions := [512; 512; 380; 800; 700; 512; 512]%Q;
          motor_states := [IDLE; IDLE; IDLE; IDLE; IDLE; IDLE; IDLE];
          all_torque_enabled := true;
          torque_enabled := [true; true; true; true; true; true; true];
          is_passivity_first := false;
          passivity_initialized_motors := [false; false; false; false; false; false; false];
          display_positions := [512; 512; 380; 800; 700; 512; 512]%Q;
          default_preset := [512; 512; 380; 800; 700; 512; 512];
          custom_presets := builtin_custom_presets;
          serial :=
            {| is_connected := true; receive_queue := [];
               arduino_out := ["2,0,0,0,0,0,0,0*"] |};
          waiting_for_positions := false;
          passivity_presets := [] |};
     custom_presets_json := NoFile |}.

(** The operator has switched to passivity mode. *)
Definition hand_guided : World := exec toggle_all_torque power_on.

(** A first report has arrived and was absorbed by one main-loop round. *)
Definition hand_guided_synced : World :=
  exec update (exec (_receive_loop "Feedback:100,200,300,600,700,10,400") hand_guided).

(** A second report has arrived: joint 0 was moved by hand from 100 to
    200. *)
Definition hand_guided_moved : World :=
  exec (_receive_loop "Feedback:200,200.5,301,600,700,10,400") hand_guided_synced.

(** ** Further methods *)

Definition set_is_connected (b : bool) (s : SerialCommunicator) :=
  {| is_connected := b; receive_queue := receive_queue s; arduino_out := arduino_out s |}.

(** [SerialCommunicator.close]: the reader thread stops and the port is
    closed, which the model shows as [is_connected] turned off. *)
Definition close : M unit :=
  fun w =>
    if DEV_MODE (config w) then (Ok tt, w)
    else (Ok tt, set_self (set_serial (set_is_connected false (serial (self w))) (self w)) w).

(** [MotorController.are_all_torque_enabled]. *)
Definition are_all_torque_enabled : M bool :=
  attr (fun c => forallb id (torque_enabled c)).

(** [MotorController.shutdown]. *)
Definition shutdown : M unit :=
  send "2,0,0,0,0,0,0,0*" ;;
  passivity <- passivity_mode ;;
  (if negb passivity then
     ms <- attr motors ;;
     assign (set_target_positions (map (fun m => Py.float (default_pos m)) ms)) ;;
     send_control_command
   else ret tt) ;;
  close.

(** What [RobotControlApp.handle_events] does for a motor key that is
    pressed or held: [if update_target(...): send_control_command()]. *)
Definition jog_key (motor_index : Z) (direction : string) (step_size : Z) : M unit :=
  moved <- update_target motor_index direction step_size ;;
  if moved then send_control_command else ret tt.

(** ** Further vocabulary *)

(** The position commands (tag 0) among what the port was given. *)
Definition position_commands (out : list string) : list string :=
  List.filter (fun command => Py.startswith command "0,") out.

(** The names of the four preset slots. *)
Definition slot_names : list string := map preset_name_of [0; 1; 2; 3].

(** Every stored preset sits under the name of a slot, once. *)
Definition slots_only (d : dict (list Z)) : Prop :=
  NoDup (map fst d) /\ incl (map fst d) slot_names.

(** [w] with the receive queue [q]. *)
Definition with_queue (q : list string) (w : World) : World :=
  set_self (set_serial (set_receive_queue q (serial (self w))) (self w)) w.

(** The lines the reader thread queues for the raw lines it read. *)
Definition queued (raws : list string) : list string :=
  List.filter (fun data => negb (String.eqb data "")) (map Py.strip raws).

(** Every target lies in the range of its joint. *)
Definition targets_in_range (c : MotorController) : Prop :=
  Forall2 (fun (m : MotorConfig) (t : Q) =>
             (inject_Z (min_val m) <= t /\ t <= inject_Z (max_val m))%Q)
          (motors c) (target_positions c).

(** Every position of a command lies in the range of its joint. *)
Definition positions_in_range (ms : list MotorConfig) (positions : list Z) : Prop :=
  Forall2 (fun (m : MotorConfig) (p : Z) => min_val m <= p <= max_val m) ms positions.

(** A preset file whose four entries are not named after the slots, and
    the world that [MotorController.__init__] builds from it. *)
Definition renamed_presets : dict (list Z) :=
  [ ("Home", [512; 512; 380; 800; 700; 512; 512]);
    ("Pick", [600; 512; 380; 800; 700; 512; 512]);
    ("Place", [400; 512; 380; 800; 700; 512; 512]);
    ("Rest", [512; 300; 380; 800; 700; 512; 512]) ].

Definition power_on_renamed : World :=
  set_custom_presets_json (JsonObject renamed_presets)
    (set_self (set_custom_presets renamed_presets (self power_on)) power_on).

(** What [update_target] leaves alone: everything but the targets and the
    joint states. *)
Definition beside_jog (w : World) :=
  (config w, custom_presets_json w, motors (self w), current_positions (self w),
   display_positions (self w), passivity_initialized_motors (self w),
   torque_enabled (self w), all_torque_enabled (self w), serial (self w),
   custom_presets (self w), default_preset (self w)).

(** The target that [update_target] computes from the old one. *)
Definition jogged (m : MotorConfig) (direction : string) (step_size : Z) (old : Q) : Q :=
  if String.eqb direction "increase"
  then Py.min (Py.float (max_val m)) (old + Py.float step_size)%Q
  else Py.max (Py.float (min_val m)) (old - Py.float step_size)%Q.

(** The target sits on an end of the range. *)
Definition at_end (m : MotorConfig) (t : Q) : bool :=
  Qeq_bool t (Py.float (max_val m)) || Qeq_bool t (Py.float (min_val m)).

(** What a link that is down shows: that it is down, and what the port
    was given.  (A link that is up shows that it is up.) *)
Definition down_link (w : World) : bool * bool * list string :=
  (DEV_MODE (config w), is_connected (serial (self w)),
   if link_up w then [] else arduino_out (serial (self w))).

(** The only exception that leaves a method is [e0]. *)
Definition raises_only (e0 : exn) {A} (m : M A) : Prop :=
  forall w e w', m w = (Raise e, w') -> e = e0.

(** A preset file whose first vector has three entries for seven joints,
    and the world that [MotorController.__init__] builds from it. *)
Definition short_presets : dict (list Z) :=
  [ ("Custom 1", [512; 512; 380]);
    ("Custom 2", [512; 512; 380; 800; 700; 512; 512]) ].

Definition power_on_short : World :=
  set_custom_presets_json (JsonObject short_presets)
    (set_self (set_custom_presets short_presets (self power_on)) power_on).

(** * Properties *)

(** ** The built-ins on examples *)

Example py_split_ex :
  Py.split "," "1,2,,3" = ["1"; "2"; ""; "3"] /\ Py.split "," "" = [""].
Proof. split; reflexivity. Qed.

Example py_float_ex :
  Py.float_of_str " -12.50" = Some (-1250 # 100)%Q /\
  Py.float_of_str "7*" = None /\ Py.float_of_str "" = None /\
  Py.float_of_str "512" = Some 512%Q.
Proof. repeat split. Qed.

Example py_int_ex :
  Py.int_of_str "512" = Some 512 /\ Py.int_of_str "5.0" = None /\
  Py.int_of_str "-3 " = Some (-3) /\ Py.int (-7 # 2) = -3 /\ Py.str 1023 = "1023".
Proof. repeat split. Qed.

Example commands_ex :
  control_command [512; 512; 380; 800; 700; 512; 512] = "0,512,512,380,800,700,512,512*" /\
  torque_command (replicate 7 false) = "1,0,0,0,0,0,0,0*".
Proof. split; reflexivity. Qed.

(** ** The monad *)


Lemma bind_ok {A B} (m : M A) (k : A -> M B) w a w' :
  m w = (Ok a, w') -> bind m k w = k a w'.
Proof. intros H. unfold bind. now rewrite H. Qed.

Lemma item_ok {A} (l : list A) i x w : l !! i = Some x -> item l i w = (Ok x, w).
Proof. intros H. unfold item. now rewrite H. Qed.

Lemma getitem_ok {A} (f : list_attr A) i x w :
  lget f (self w) !! i = Some x -> getitem f i w = (Ok x, w).
Proof. intros H. unfold getitem, bind, attr. now apply item_ok. Qed.

Lemma setitem_ok {A} (f : list_attr A) i v w :
  (i < length (lget f (self w)))%nat ->
  setitem f i v w = (Ok tt, set_self (lset f (<[i:=v]> (lget f (self w))) (self w)) w).
Proof.
  intros H. unfold setitem, bind, attr.
  apply Nat.ltb_lt in H. now rewrite H.
Qed.


(** ** Joints as seen through the per-joint lists *)

Lemma joint_Some c i x :
  joint c i = Some x ->
  target_positions c !! i = Some (target x) /\
  display_positions c !! i = Some (display x) /\
  current_positions c !! i = Some (current x) /\
  motor_states c !! i = Some (mode_state x) /\
  passivity_initialized_motors c !! i = Some (initialized x).
Proof.
  unfold joint. repeat case_match; try discriminate.
  intros [= <-]. simpl. auto.
Qed.

Lemma sync_joint_acts report :
  acts_on (fun i => is_Some (report !! i)) (sync_joint report)
          (fun i x => absorb (nth i report 0%Q) x).
Proof.
  intros i w x [r Hr] Hx.
  destruct (joint_Some _ _ _ Hx) as (Ht & Hd & Hc & Hs & Hb).
  pose proof (lookup_lt_Some _ _ _ Ht) as Lt.
  pose proof (lookup_lt_Some _ _ _ Hd) as Ld.
  pose proof (lookup_lt_Some _ _ _ Hc) as Lc.
  pose proof (lookup_lt_Some _ _ _ Hs) as Ls.
  pose proof (lookup_lt_Some _ _ _ Hb) as Lb.
  assert (Hn : nth i report 0%Q = r) by (apply nth_lookup_Some with (d := 0%Q) in Hr; exact Hr).
  unfold sync_joint.
  erewrite bind_ok by (apply getitem_ok; exact Hb).
  unfold absorb. rewrite Hn. destruct (initialized x) eqn:Ei; simpl negb; cbv iota.
  - erewrite bind_ok.
    2:{ erewrite bind_ok by (apply item_ok; exact Hr). apply setitem_ok. exact Lt. }
    rewrite setitem_ok by (simpl; exact Ls).
    eexists. split; [reflexivity|]. split; [|split].
    + unfold only_joints, set_joints. simpl. reflexivity.
    + unfold joint. simpl. rewrite !list_lookup_insert_eq by assumption.
      rewrite Hd, Hc, Hb. reflexivity.
    + intros j Hj. unfold joint. simpl.
      rewrite !list_lookup_insert_ne by auto. reflexivity.
  - erewrite bind_ok.
    2:{ erewrite bind_ok by (apply item_ok; exact Hr).
        erewrite bind_ok by (apply setitem_ok; exact Lt).
        erewrite bind_ok by (apply item_ok; exact Hr).
        erewrite bind_ok by (apply setitem_ok; simpl; exact Ld).
        erewrite bind_ok by (apply item_ok; exact Hr).
        erewrite bind_ok by (apply setitem_ok; simpl; exact Lc).
        apply setitem_ok. simpl. exact Lb. }
    rewrite setitem_ok by (simpl; exact Ls).
    eexists. split; [reflexivity|]. split; [|split].
    + unfold only_joints, set_joints. simpl. reflexivity.
    + unfold joint. simpl. rewrite !list_lookup_insert_eq by assumption.
      reflexivity.
    + intros j Hj. unfold joint. simpl.
      rewrite !list_lookup_insert_ne by auto. reflexivity.
Qed.

Lemma only_joints_refl w : only_joints w w.
Proof. unfold only_joints, set_joints. destruct w as [cf [] f]. reflexivity. Qed.

Lemma only_joints_trans w1 w2 w3 :
  only_joints w1 w2 -> only_joints w2 w3 -> only_joints w1 w3.
Proof.
  unfold only_joints. intros H12 H23.
  etransitivity; [exact H23|].
  etransitivity; [exact (f_equal (set_joints (self w3)) H12)|].
  reflexivity.
Qed.

Lemma ease_joint_acts : acts_on (fun _ => True) ease_joint (fun _ x => ease x).
Proof.
  intros i w x _ Hx.
  destruct (joint_Some _ _ _ Hx) as (Ht & Hd & Hc & Hs & Hb).
  pose proof (lookup_lt_Some _ _ _ Ht) as Lt.
  pose proof (lookup_lt_Some _ _ _ Hd) as Ld.
  pose proof (lookup_lt_Some _ _ _ Hs) as Ls.
  unfold ease_joint.
  erewrite bind_ok by (apply getitem_ok; exact Ht).
  erewrite bind_ok by (apply getitem_ok; exact Hd).
  set (d' := eased (target x) (display x)).
  assert (Hstep :
    (if Py.gt (Qabs (target x - display x)) (1 # 2)
     then d0 <- getitem Display i ;;
          setitem Display i (d0 + (target x - display x) * ui_smoothness)%Q
     else t0 <- getitem Target i ;; setitem Display i t0) w
    = (Ok tt, set_self (set_display_positions (<[i:=d']> (display_positions (self w))) (self w)) w)).
  { unfold d', eased. destruct (Py.gt _ _).
    - erewrite bind_ok by (apply getitem_ok; exact Hd). now rewrite setitem_ok.
    - erewrite bind_ok by (apply getitem_ok; exact Ht). now rewrite setitem_ok. }
  erewrite bind_ok by exact Hstep. clear Hstep.
  erewrite bind_ok by (apply getitem_ok; simpl; now apply list_lookup_insert_eq).
  erewrite bind_ok by (apply getitem_ok; simpl; exact Ht).
  assert (Hfin : forall s',
    joint (self (set_self (set_motor_states (<[i:=s']> (motor_states (self w)))
       (set_display_positions (<[i:=d']> (display_positions (self w))) (self w))) w)) i
    = Some {| target := target x; display := d'; current := current x;
              mode_state := s'; initialized := initialized x |}).
  { intros s'. unfold joint. simpl. rewrite !list_lookup_insert_eq by assumption.
    now rewrite Ht, Hc, Hb. }
  assert (Hsame :
    joint (self (set_self
       (set_display_positions (<[i:=d']> (display_positions (self w))) (self w)) w)) i
    = Some {| target := target x; display := d'; current := current x;
              mode_state := mode_state x; initialized := initialized x |}).
  { unfold joint. simpl. rewrite !list_lookup_insert_eq by assumption.
    now rewrite Ht, Hc, Hs, Hb. }
  unfold ease, settled. fold d'.
  destruct (Py.lt (Qabs (d' - target x)) 2).
  - erewrite bind_ok by (apply getitem_ok; simpl; exact Hs).
    destruct (MotorState_eqb (mode_state x) MOVING).
    + rewrite setitem_ok by (simpl; exact Ls).
      eexists. split; [reflexivity|]. split; [|split].
      * unfold only_joints, set_joints. simpl. reflexivity.
      * apply Hfin.
      * intros j Hj. unfold joint. simpl.
        rewrite !list_lookup_insert_ne by auto. reflexivity.
    + eexists. split; [reflexivity|]. split; [|split].
      * unfold only_joints, set_joints. simpl. reflexivity.
      * apply Hsame.
      * intros j Hj. unfold joint. simpl.
        rewrite !list_lookup_insert_ne by auto. reflexivity.
  - erewrite bind_ok by (apply getitem_ok; simpl; exact Hs).
    destruct (negb (MotorState_eqb (mode_state x) AT_LIMIT)).
    + rewrite setitem_ok by (simpl; exact Ls).
      eexists. split; [reflexivity|]. split; [|split].
      * unfold only_joints, set_joints. simpl. reflexivity.
      * apply Hfin.
      * intros j Hj. unfold joint. simpl.
        rewrite !list_lookup_insert_ne by auto. reflexivity.
    + eexists. split; [reflexivity|]. split; [|split].
      * unfold only_joints, set_joints. simpl. reflexivity.
      * apply Hsame.
      * intros j Hj. unfold joint. simpl.
        rewrite !list_lookup_insert_ne by auto. reflexivity.
Qed.

(** A loop over distinct joints whose body acts on its own joint alone
    runs to the end and has acted on each of them once. *)
Lemma for_each_acts P body F l :
  acts_on P body F -> NoDup l ->
  forall w,
    (forall i, i ∈ l -> P i /\ is_Some (joint (self w) i)) ->
    exists w', for_each l body w = (Ok tt, w') /\ only_joints w w' /\
      (forall i, i ∈ l -> joint (self w') i = F i <$> joint (self w) i) /\
      (forall j, j ∉ l -> joint (self w') j = joint (self w) j).
Proof.
  intros Hbody. induction 1 as [|i l Hi Hnd IH]; intros w Hl.
  - exists w. simpl. split; [reflexivity|]. split; [apply only_joints_refl|].
    split; [|reflexivity]. intros i Hi. inversion Hi.
  - destruct (Hl i) as [HP [x Hx]]; [left|].
    destruct (Hbody i w x HP Hx) as (w1 & E1 & O1 & J1 & K1).
    destruct (IH w1) as (w2 & E2 & O2 & J2 & K2).
    { intros j Hj. split; [apply Hl; now right|].
      rewrite K1 by (intros ->; contradiction). apply Hl. now right. }
    exists w2. split; [|split; [|split]].
    + simpl. erewrite bind_ok by exact E1. exact E2.
    + eapply only_joints_trans; eassumption.
    + intros j Hj. apply elem_of_cons in Hj as [->|Hj].
      * rewrite K2 by exact Hi. rewrite J1, Hx. reflexivity.
      * rewrite J2 by exact Hj. rewrite K1 by (intros ->; contradiction). reflexivity.
    + intros j Hj. apply not_elem_of_cons in Hj as [Hne Hj].
      rewrite K2 by exact Hj. now apply K1.
Qed.

Lemma fits_joint c i : fits c -> (i < length (motors c))%nat -> is_Some (joint c i).
Proof.
  intros (Ht & Hd & Hc & Hs & Hb) Hi. unfold joint.
  destruct (lookup_lt_is_Some_2 (target_positions c) i) as [t ->]; [lia|].
  destruct (lookup_lt_is_Some_2 (display_positions c) i) as [d ->]; [lia|].
  destruct (lookup_lt_is_Some_2 (current_positions c) i) as [cu ->]; [lia|].
  destruct (lookup_lt_is_Some_2 (motor_states c) i) as [s ->]; [lia|].
  destruct (lookup_lt_is_Some_2 (passivity_initialized_motors c) i) as [b ->]; [lia|].
  eauto.
Qed.

Lemma joints_fit c :
  (forall i, (i < length (motors c))%nat -> is_Some (joint c i)) -> fits c.
Proof.
  intros H. unfold fits. cbv zeta.
  destruct (length (motors c)) as [|n] eqn:En; [repeat split; lia|].
  destruct (H n) as [x Hx]; [lia|].
  destruct (joint_Some _ _ _ Hx) as (Ht & Hd & Hc & Hs & Hb).
  apply lookup_lt_Some in Ht, Hd, Hc, Hs, Hb. repeat split; lia.
Qed.

(** ** Methods that leave an observation alone *)

Section Keeps.
Context {X : Type} (obs : World -> X).

Lemma keeps_ret {A} (a : A) : keeps obs (ret a).
Proof. intros w. reflexivity. Qed.

Lemma keeps_raise {A} e : keeps obs (@raise A e).
Proof. intros w. reflexivity. Qed.

Lemma keeps_attr {A} (f : MotorController -> A) : keeps obs (attr f).
Proof. intros w. reflexivity. Qed.

Lemma keeps_passivity_mode : keeps obs passivity_mode.
Proof. intros w. reflexivity. Qed.

Lemma keeps_bind {A B} (m : M A) (k : A -> M B) :
  keeps obs m -> (forall a, keeps obs (k a)) -> keeps obs (bind m k).
Proof.
  intros Hm Hk w. unfold bind. specialize (Hm w).
  destruct (m w) as [[a|e] w1]; simpl in *; [|exact Hm].
  rewrite Hk. exact Hm.
Qed.

Lemma keeps_try_except {A} (m : M A) h :
  keeps obs m -> (forall e, keeps obs (h e)) -> keeps obs (try_except m h).
Proof.
  intros Hm Hh w. unfold try_except. specialize (Hm w).
  destruct (m w) as [[a|e] w1]; simpl in *; [exact Hm|].
  rewrite Hh. exact Hm.
Qed.

Lemma keeps_for_each {A} (l : list A) body :
  (forall x, keeps obs (body x)) -> keeps obs (for_each l body).
Proof.
  intros Hb. induction l as [|x l IH]; simpl.
  - apply keeps_ret.
  - apply keeps_bind; [apply Hb|intros _; exact IH].
Qed.

Lemma keeps_item {A} (l : list A) i : keeps obs (item l i).
Proof. unfold item. destruct (l !! i); [apply keeps_ret|apply keeps_raise]. Qed.

Lemma keeps_getitem {A} (f : list_attr A) i : keeps obs (getitem f i).
Proof. unfold getitem. apply keeps_bind; [apply keeps_attr|intros; apply keeps_item]. Qed.

Lemma keeps_assign upd :
  (forall w, obs (set_self (upd (self w)) w) = obs w) -> keeps obs (assign upd).
Proof. intros H w. apply H. Qed.

Lemma keeps_setitem {A} (f : list_attr A) i v :
  (forall l w, obs (set_self (lset f l (self w)) w) = obs w) ->
  keeps obs (setitem f i v).
Proof.
  intros H. unfold setitem. apply keeps_bind; [apply keeps_attr|intros l].
  destruct (i <? length l)%nat; [|apply keeps_raise].
  apply keeps_assign. intros w. apply H.
Qed.

Lemma keeps_send command :
  (forall o w,
      obs (set_self (set_serial (set_arduino_out o (serial (self w))) (self w)) w) = obs w) ->
  keeps obs (send command).
Proof.
  intros H w. unfold send.
  destruct (DEV_MODE (config w)); [reflexivity|].
  destruct (negb (is_connected (serial (self w)))); [reflexivity|]. apply H.
Qed.

Lemma keeps_get_received_data :
  (forall q w,
      obs (set_self (set_serial (set_receive_queue q (serial (self w))) (self w)) w) = obs w) ->
  keeps obs get_received_data.
Proof.
  intros H w. unfold get_received_data.
  destruct (DEV_MODE (config w)); [reflexivity|].
  destruct (receive_queue (serial (self w))); [reflexivity|]. apply H.
Qed.

Lemma keeps_drain n :
  keeps obs get_received_data -> keeps obs (drain n).
Proof.
  intros H. induction n as [|n IH]; simpl; [apply keeps_ret|].
  apply keeps_bind; [exact H|]. intros [x|]; [exact IH|apply keeps_ret].
Qed.
End Keeps.

Ltac unfold_methods :=
  unfold update, update_positions, ease_joint, process_feedback, dispatch, drain_queue,
    sync_joint, for_range, load_default_preset, load_custom_preset, toggle_torque,
    update_target, send_control_command, send_torque_command, _receive_loop, json_dump.

(** Breaks a method into its primitives; what is left are the facts about
    the observation that the primitives ask for. *)
Ltac keeps_step :=
  first
    [ apply keeps_ret | apply keeps_raise | apply keeps_attr
    | apply keeps_passivity_mode | apply keeps_item | apply keeps_getitem
    | apply keeps_bind; [|intros]
    | apply keeps_try_except; [|intros]
    | apply keeps_for_each; intros
    | apply keeps_setitem; intros; reflexivity
    | apply keeps_assign; intros; reflexivity
    | apply keeps_send; intros; reflexivity
    | apply keeps_get_received_data; intros; reflexivity
    | apply keeps_drain
    | match goal with
      | |- keeps _ (if ?b then _ else _) => destruct b
      | |- keeps _ (match ?x with _ => _ end) => destruct x
      end
    | progress unfold_methods ].

Ltac keeps_auto := repeat keeps_step.

(** ** Decoding a line *)

Lemma parse_floats_length parts idx report :
  parse_floats parts idx = Some report -> length report = length idx.
Proof.
  revert report. induction idx as [|i idx IH]; simpl; intros report.
  - now intros [= <-].
  - destruct (parts !! i); [|discriminate].
    destruct (Py.float_of_str s); [|discriminate].
    destruct (parse_floats parts idx); [|discriminate].
    intros [= <-]. simpl. f_equal. now apply IH.
Qed.

Lemma feedback_report_length n line report :
  feedback_report n line = Some report -> length report = n.
Proof.
  unfold feedback_report. destruct (feedback_fields line); [|discriminate].
  destruct (_ <? _)%nat; [discriminate|].
  intros H. apply parse_floats_length in H. now rewrite length_seq in H.
Qed.

Lemma feedback_not_positions line :
  Py.startswith line "Feedback:" = true -> Py.startswith line "Positions:" = false.
Proof.
  unfold Py.startswith. destruct line as [|c line]; [discriminate|].
  change (String.prefix "Feedback:" (String c line))
    with (if ascii_dec "F" c then String.prefix "eedback:" line else false).
  change (String.prefix "Positions:" (String c line))
    with (if ascii_dec "P" c then String.prefix "ositions:" line else false).
  destruct (ascii_dec "F" c) as [<-|]; [intros _|discriminate].
  destruct (ascii_dec "P" "F"); [discriminate|reflexivity].
Qed.

(** ** The feedback synchroniser *)

Lemma dispatch_feedback w line report :
  PASSIVITY_MODE (config w) = true ->
  feedback_report (length (motors (self w))) line = Some report ->
  dispatch line w =
    (for_range (length (motors (self w))) (sync_joint report) ;;
     first <- attr is_passivity_first ;;
     flags <- attr passivity_initialized_motors ;;
     if first && forallb id flags then assign (set_is_passivity_first false) else ret tt) w.
Proof.
  intros Hp Hr. unfold dispatch, feedback_report, feedback_fields in *.
  destruct (Py.startswith line "Feedback:") eqn:Hf; [|discriminate].
  rewrite (feedback_not_positions _ Hf).
  unfold bind at 1. unfold passivity_mode at 1. rewrite Hp. cbn [negb].
  unfold bind at 1. unfold attr at 1.
  destruct (_ <? _)%nat; [discriminate|]. now rewrite Hr.
Qed.

Lemma process_feedback_absorbs w line q report :
  PASSIVITY_MODE (config w) = true ->
  DEV_MODE (config w) = false ->
  receive_queue (serial (self w)) = line :: q ->
  feedback_report (length (motors (self w))) line = Some report ->
  fits (self w) ->
  exists w', process_feedback w = (Ok tt, w') /\
    config w' = config w /\ motors (self w') = motors (self w) /\
    (forall i, (i < length (motors (self w)))%nat ->
        joint (self w') i = absorb (nth i report 0%Q) <$> joint (self w) i) /\
    (forall i, (length (motors (self w)) <= i)%nat ->
        joint (self w') i = joint (self w) i).
Proof.
  intros Hp Hd Hq Hr Hfit.
  set (n := length (motors (self w))) in *.
  set (wp := set_self (set_serial (set_receive_queue q (serial (self w))) (self w)) w).
  assert (Hline : exists c l, line = String c l).
  { unfold feedback_report, feedback_fields in Hr.
    destruct line as [|c l]; [discriminate|]. eauto. }
  destruct Hline as (c & l & ->).
  assert (Hpop : get_received_data w = (Ok (Some (String c l)), wp)).
  { unfold get_received_data. now rewrite Hd, Hq. }
  destruct (for_each_acts (fun i => is_Some (report !! i)) (sync_joint report)
              (fun i x => absorb (nth i report 0%Q) x) (seq 0 n)
              (sync_joint_acts report) (NoDup_seq 0 n) wp)
    as (w1 & E1 & O1 & J1 & K1).
  { intros i Hi. apply elem_of_seq in Hi. split.
    - apply lookup_lt_is_Some_2. rewrite (feedback_report_length _ _ _ Hr). lia.
    - change (joint (self wp) i) with (joint (self w) i). apply fits_joint; [exact Hfit|].
      fold n. lia. }
  assert (Hw1 : config w1 = config w /\ motors (self w1) = motors (self w)).
  { rewrite O1. split; reflexivity. }
  assert (Hrun : exists w', dispatch (String c l) wp = (Ok tt, w') /\
             config w' = config w1 /\ motors (self w') = motors (self w1) /\
             forall i, joint (self w') i = joint (self w1) i).
  { rewrite (dispatch_feedback wp (String c l) report) by assumption.
    change (length (motors (self wp))) with n.
    unfold for_range. erewrite bind_ok by exact E1.
    unfold bind, attr.
    destruct (is_passivity_first (self w1) && forallb id (passivity_initialized_motors (self w1))).
    - eexists. split; [reflexivity|]. repeat split.
    - eexists. split; [reflexivity|]. repeat split. }
  destruct Hrun as (w' & E' & C' & M' & J').
  exists w'. split; [|split; [|split; [|split]]].
  - unfold process_feedback, bind at 1, passivity_mode at 1. rewrite Hp.
    unfold bind at 1, attr at 1. cbn [negb andb].
    erewrite bind_ok by exact Hpop. unfold try_except. now rewrite E'.
  - rewrite C'. apply Hw1.
  - rewrite M'. apply Hw1.
  - intros i Hi. rewrite J', J1 by (apply elem_of_seq; lia). reflexivity.
  - intros i Hi. rewrite J', K1; [reflexivity|].
    rewrite elem_of_seq. lia.
Qed.

Example power_on_is_init :
  MotorController__init__ motors_table (Config_at_startup false) true NoFile = Ok power_on.
Proof. reflexivity. Qed.



(** ** The mode switch and the presets *)

Lemma load_default_preset_refused w :
  PASSIVITY_MODE (config w) = true -> load_default_preset w = (Ok false, w).
Proof. intros Hp. unfold load_default_preset, bind, passivity_mode. now rewrite Hp. Qed.

Lemma load_custom_preset_refused slot w :
  PASSIVITY_MODE (config w) = true -> load_custom_preset slot w = (Ok false, w).
Proof. intros Hp. unfold load_custom_preset, bind, passivity_mode. now rewrite Hp. Qed.

(** C2: while passivity mode is on, [load_default_preset] and
    [load_custom_preset] of any slot return false and change nothing: the
    targets stay as they are and nothing is written to the port. *)
Theorem load_rejected_in_passivity w slot :
  PASSIVITY_MODE (config w) = true ->
  (eval load_default_preset w = Ok false /\ exec load_default_preset w = w) /\
  (eval (load_custom_preset slot) w = Ok false /\ exec (load_custom_preset slot) w = w) /\
  target_positions (self (exec load_default_preset w)) = target_positions (self w) /\
  target_positions (self (exec (load_custom_preset slot) w)) = target_positions (self w) /\
  arduino_out (serial (self (exec load_default_preset w))) = arduino_out (serial (self w)) /\
  arduino_out (serial (self (exec (load_custom_preset slot) w))) = arduino_out (serial (self w)).
Proof.
  intros Hp. unfold eval, exec.
  rewrite (load_default_preset_refused w Hp), (load_custom_preset_refused slot w Hp).
  repeat split.
Qed.

Lemma load_rejected_in_passivity_witness :
  (eval load_default_preset hand_guided = Ok false /\
   exec load_default_preset hand_guided = hand_guided) /\
  (eval (load_custom_preset 0) hand_guided = Ok false /\
   exec (load_custom_preset 0) hand_guided = hand_guided) /\
  target_positions (self (exec load_default_preset hand_guided))
    = target_positions (self hand_guided) /\
  target_positions (self (exec (load_custom_preset 0) hand_guided))
    = target_positions (self hand_guided) /\
  arduino_out (serial (self (exec load_default_preset hand_guided)))
    = arduino_out (serial (self hand_guided)) /\
  arduino_out (serial (self (exec (load_custom_preset 0) hand_guided)))
    = arduino_out (serial (self hand_guided)).
Proof. apply (load_rejected_in_passivity hand_guided 0). reflexivity. Defined.

Lemma send_ok command w : send command w = (Ok (link_up w), written command w).
Proof.
  unfold written, link_up, send.
  destruct (DEV_MODE (config w)); [reflexivity|].
  destruct (is_connected (serial (self w))); reflexivity.
Qed.

Lemma written_config command w : config (written command w) = config w.
Proof.
  unfold written, send. destruct (DEV_MODE (config w)); [reflexivity|].
  destruct (negb _); reflexivity.
Qed.

Lemma written_file command w :
  custom_presets_json (written command w) = custom_presets_json w.
Proof.
  unfold written, send. destruct (DEV_MODE (config w)); [reflexivity|].
  destruct (negb _); reflexivity.
Qed.

Lemma written_self command w :
  self (written command w) =
  set_serial (set_arduino_out
                (arduino_out (serial (self w)) ++ if link_up w then [command] else [])%list
                (serial (self w))) (self w).
Proof.
  unfold written, link_up, send.
  destruct (DEV_MODE (config w)); simpl.
  - rewrite app_nil_r. now destruct (self w) as [? ? ? ? ? ? ? ? ? ? ? [] ? ?].
  - destruct (is_connected (serial (self w))); simpl; [reflexivity|].
    rewrite app_nil_r. now destruct (self w) as [? ? ? ? ? ? ? ? ? ? ? [] ? ?].
Qed.

Lemma written_link_up command w : link_up (written command w) = link_up w.
Proof. unfold link_up. now rewrite written_config, written_self. Qed.

Lemma toggle_all_torque_run w :
  let b := negb (all_torque_enabled (self w)) in
  let n := length (motors (self w)) in
  let w1 := written (torque_command (replicate n b))
              (set_self (set_torque_enabled (replicate n b)
                           (set_all_torque_enabled b (self w))) w) in
  let w2 := set_PASSIVITY_MODE (negb b) w1 in
  let w3 := set_self (set_passivity_initialized_motors (replicate 7 false)
                        (set_is_passivity_first (negb b) (self w2))) w2 in
  toggle_all_torque w =
    (Ok b, written (if negb b then "2,1,0,0,0,0,0,0*" else "2,0,0,0,0,0,0,0*") w3).
Proof.
  intros b n w1 w2 w3.
  unfold toggle_all_torque, send_torque_command.
  unfold bind at 1, attr at 1. fold b.
  unfold bind at 1, assign at 1.
  unfold bind at 1, attr at 1. cbn [self set_self motors set_all_torque_enabled]. fold n.
  unfold bind at 1, assign at 1.
  unfold bind at 1, bind at 1, bind at 1, attr at 1.
  cbn [self set_self torque_enabled set_torque_enabled].
  rewrite send_ok. fold w1. unfold ret at 1.
  unfold bind at 1. fold w2.
  unfold bind at 1, passivity_mode at 1. cbn [config set_PASSIVITY_MODE PASSIVITY_MODE].
  destruct (negb b) eqn:Eb.
  - unfold bind at 1, bind at 1, assign at 1.
    unfold bind at 1, assign at 1.
    cbn [self set_self]. rewrite send_ok. reflexivity.
  - unfold bind at 1, bind at 1, assign at 1.
    unfold bind at 1, assign at 1.
    cbn [self set_self]. rewrite send_ok. reflexivity.
Qed.

Lemma toggle_all_torque_facts w :
  let b := negb (all_torque_enabled (self w)) in
  let n := length (motors (self w)) in
  let w' := exec toggle_all_torque w in
  eval toggle_all_torque w = Ok b /\
  PASSIVITY_MODE (config w') = negb b /\
  DEV_MODE (config w') = DEV_MODE (config w) /\
  link_up w' = link_up w /\
  all_torque_enabled (self w') = b /\
  torque_enabled (self w') = replicate n b /\
  passivity_initialized_motors (self w') = replicate 7 false /\
  is_passivity_first (self w') = negb b /\
  arduino_out (serial (self w')) =
    (arduino_out (serial (self w)) ++
     if link_up w
     then [torque_command (replicate n b);
           if negb b then "2,1,0,0,0,0,0,0*" else "2,0,0,0,0,0,0,0*"]
     else [])%list /\
  motors (self w') = motors (self w) /\
  default_preset (self w') = default_preset (self w) /\
  custom_presets (self w') = custom_presets (self w) /\
  custom_presets_json w' = custom_presets_json w /\
  target_positions (self w') = target_positions (self w) /\
  display_positions (self w') = display_positions (self w) /\
  current_positions (self w') = current_positions (self w) /\
  motor_states (self w') = motor_states (self w).
Proof.
  intros b n w'. unfold w', exec, eval.
  rewrite (toggle_all_torque_run w). cbn zeta. fold b n. cbn [fst snd].
  set (w0 := set_self (set_torque_enabled (replicate n b)
                         (set_all_torque_enabled b (self w))) w).
  assert (L0 : link_up w0 = link_up w) by reflexivity.
  set (w1 := written (torque_command (replicate n b)) w0).
  assert (L1 : link_up w1 = link_up w) by (unfold w1; now rewrite written_link_up).
  set (w2 := set_PASSIVITY_MODE (negb b) w1).
  set (w3 := set_self (set_passivity_initialized_motors (replicate 7 false)
                         (set_is_passivity_first (negb b) (self w2))) w2).
  assert (L3 : link_up w3 = link_up w) by exact L1.
  set (c := if negb b then _ else _).
  assert (S1 : self w1 = _) by apply (written_self (torque_command (replicate n b)) w0).
  assert (C1 : config w1 = config w) by exact (written_config _ w0).
  assert (F1 : custom_presets_json w1 = custom_presets_json w)
    by exact (written_file _ w0).
  assert (S4 : self (written c w3) = _) by apply (written_self c w3).
  rewrite L3 in S4. rewrite L0 in S1.
  split; [reflexivity|].
  split; [rewrite written_config; reflexivity|].
  split; [rewrite written_config; simpl; now rewrite C1|].
  split; [now rewrite written_link_up|].
  rewrite written_file, S4. unfold w3. cbn [self set_self]. unfold w2.
  cbn [self set_PASSIVITY_MODE custom_presets_json]. rewrite S1. unfold w0. simpl.
  repeat split; try exact F1.
  now destruct (link_up w); rewrite <- app_assoc.
Qed.

(** C7: from normal mode, [toggle_all_torque] enters passivity mode: every
    [passivity_initialized_motors] flag is false, presets cannot be loaded,
    and, when the link is up, the port was given the torque command with
    every flag 0 and then the feedback subscription ["2,1,0,0,0,0,0,0*"].
    A second [toggle_all_torque] is back in normal mode: the port was given
    the torque command with every flag 1 and then ["2,0,0,0,0,0,0,0*"],
    [load_default_preset] returns true and sets the targets to the default
    preset, and [load_custom_preset] of a stored slot returns true and sets
    the targets to that preset. *)
Theorem toggling_twice_restores_loading w :
  PASSIVITY_MODE (config w) = false ->
  all_torque_enabled (self w) = true ->
  let n := length (motors (self w)) in
  let w1 := exec toggle_all_torque w in
  let w2 := exec toggle_all_torque w1 in
  (eval toggle_all_torque w = Ok false /\
   PASSIVITY_MODE (config w1) = true /\
   passivity_initialized_motors (self w1) = replicate 7 false /\
   arduino_out (serial (self w1)) =
     (arduino_out (serial (self w)) ++
      if link_up w then [torque_command (replicate n false); "2,1,0,0,0,0,0,0*"] else [])%list /\
   eval load_default_preset w1 = Ok false /\
   forall slot, eval (load_custom_preset slot) w1 = Ok false) /\
  (eval toggle_all_torque w1 = Ok true /\
   PASSIVITY_MODE (config w2) = false /\
   arduino_out (serial (self w2)) =
     (arduino_out (serial (self w1)) ++
      if link_up w then [torque_command (replicate n true); "2,0,0,0,0,0,0,0*"] else [])%list /\
   eval load_default_preset w2 = Ok true /\
   target_positions (self (exec load_default_preset w2))
     = map Py.float (default_preset (self w)) /\
   forall slot preset,
     0 <= slot < 4 ->
     Dict.get (custom_presets (self w)) (preset_name_of slot) = Some preset ->
     eval (load_custom_preset slot) w2 = Ok true /\
     target_positions (self (exec (load_custom_preset slot) w2)) = map Py.float preset).
Proof.
  intros Hp Ht n w1 w2.
  destruct (toggle_all_torque_facts w)
    as (E1 & P1 & D1 & L1 & T1 & _ & I1 & _ & O1 & M1 & DP1 & CP1 & _).
  destruct (toggle_all_torque_facts w1)
    as (E2 & P2 & D2 & L2 & T2 & _ & _ & _ & O2 & M2 & DP2 & CP2 & _).
  fold w1 in E1, P1, D1, L1, T1, I1, O1, M1, DP1, CP1.
  fold w2 in E2, P2, D2, L2, T2, O2, M2, DP2, CP2.
  rewrite Ht in *. rewrite T1, L1, M1 in *. cbn [negb] in *. fold n in O1, O2.
  split.
  - repeat split; try assumption.
    + unfold eval. now rewrite (load_default_preset_refused w1 P1).
    + intros slot. unfold eval. now rewrite (load_custom_preset_refused slot w1 P1).
  - split; [exact E2|]. split; [exact P2|]. split; [exact O2|].
    split; [|split].
    + unfold eval, load_default_preset, send_control_command, bind, passivity_mode,
        attr, assign, ret. rewrite P2. simpl. rewrite P2, send_ok. reflexivity.
    + unfold exec, load_default_preset, send_control_command, bind, passivity_mode,
        attr, assign, ret. rewrite P2. simpl. rewrite P2, send_ok. cbn [snd].
      rewrite written_self. simpl. now rewrite DP2, DP1.
    + intros slot preset Hslot Hget.
      assert (Hs : (0 <=? slot) && (slot <? 4) = true).
      { apply andb_true_intro. split; [apply Z.leb_le|apply Z.ltb_lt]; lia. }
      unfold eval, exec, load_custom_preset, send_control_command, bind, passivity_mode,
        attr, assign, ret. rewrite P2, Hs, CP2, CP1, Hget. simpl. rewrite P2, send_ok.
      cbn [fst snd]. rewrite written_self. simpl. split; reflexivity.
Qed.

Lemma toggling_twice_restores_loading_witness :
  let w1 := exec toggle_all_torque power_on in
  let w2 := exec toggle_all_torque w1 in
  passivity_initialized_motors (self w1) = replicate 7 false /\
  arduino_out (serial (self w1)) =
    ["2,0,0,0,0,0,0,0*"; "1,0,0,0,0,0,0,0*"; "2,1,0,0,0,0,0,0*"] /\
  arduino_out (serial (self w2)) =
    ["2,0,0,0,0,0,0,0*"; "1,0,0,0,0,0,0,0*"; "2,1,0,0,0,0,0,0*";
     "1,1,1,1,1,1,1,1*"; "2,0,0,0,0,0,0,0*"] /\
  eval load_default_preset w2 = Ok true /\
  eval (load_custom_preset 3) w2 = Ok true.
Proof.
  destruct (toggling_twice_restores_loading power_on eq_refl eq_refl)
    as ((_ & _ & Hi & Ho1 & _) & (_ & _ & Ho2 & Hd & _ & Hc)).
  split; [exact Hi|]. split; [exact Ho1|]. split; [exact Ho2|]. split; [exact Hd|].
  apply (Hc 3 [512; 512; 380; 800; 700; 512; 512]); [lia|reflexivity].
Defined.

(** ** The mode invariant *)

Lemma process_feedback_keeps_mode : keeps mode_flags process_feedback.
Proof. keeps_auto. Qed.

Lemma await_positions_keeps_mode preset_name clock :
  keeps mode_flags (await_positions preset_name clock).
Proof.
  induction clock as [|arrived clock IH]; simpl.
  - keeps_auto.
  - apply keeps_bind; [keeps_auto|intros _].
    apply keeps_bind; [apply process_feedback_keeps_mode|intros _].
    apply keeps_bind; [keeps_auto|intros received].
    destruct received; [exact IH|]. keeps_auto. intros w. reflexivity.
Qed.

Lemma step_keeps_mode w w' :
  step w w' -> w' = exec toggle_all_torque w \/ mode_flags w' = mode_flags w.
Proof.
  destruct 1; [right|left; reflexivity|right..]; unfold exec.
  - revert w. change (keeps mode_flags (_receive_loop raw)). keeps_auto.
  - revert w. change (keeps mode_flags (toggle_torque motor_index)). keeps_auto.
  - revert w. change (keeps mode_flags (update_target motor_index direction step_size)).
    keeps_auto.
  - revert w. change (keeps mode_flags send_control_command). keeps_auto.
  - revert w. change (keeps mode_flags load_default_preset). keeps_auto.
  - revert w. change (keeps mode_flags (load_custom_preset slot)). keeps_auto.
  - revert w. change (keeps mode_flags (save_custom_preset slot clock)).
    unfold save_custom_preset. keeps_auto; try apply await_positions_keeps_mode.
    intros w. reflexivity.
  - revert w. change (keeps mode_flags update). keeps_auto.
Qed.

Lemma init_facts table cfg port_ok f w0 :
  MotorController__init__ table cfg port_ok f = Ok w0 ->
  config w0 = cfg /\ motors (self w0) = table /\
  all_torque_enabled (self w0) = true /\
  torque_enabled (self w0) = replicate (length table) true /\
  target_positions (self w0) = map Py.float (map default_pos table) /\
  _load_custom_presets f = Ok (custom_presets (self w0)).
Proof.
  unfold MotorController__init__.
  destruct (_load_custom_presets f) as [presets|e]; [|discriminate].
  destruct (negb (PASSIVITY_MODE cfg)); intros [= <-].
  - rewrite send_ok. cbn [snd]. rewrite written_config, written_self. repeat split.
  - repeat split.
Qed.

Lemma reachable_mode_inv w0 w : mode_inv w0 -> reachable w0 w -> mode_inv w.
Proof.
  intros H0. induction 1 as [|w w' _ IH Hstep]; [exact H0|].
  destruct (step_keeps_mode _ _ Hstep) as [->|Hm].
  - destruct (toggle_all_torque_facts w) as (_ & P & _ & _ & T & _).
    unfold mode_inv. now rewrite P, T.
  - unfold mode_inv in *. unfold mode_flags in Hm. now injection Hm as -> ->.
Qed.

(** C10: in the world that [MotorController.__init__] builds, and in every
    world reached from it by the operator, the reader thread and the main
    loop, passivity mode is on exactly when [all_torque_enabled] is off.
    [toggle_all_torque] keeps this, and right after it (as at start-up)
    every entry of [torque_enabled] equals [all_torque_enabled]. *)
Theorem passivity_iff_torque_off table dev port_ok f w0 w :
  MotorController__init__ table (Config_at_startup dev) port_ok f = Ok w0 ->
  reachable w0 w ->
  (mode_inv w0 /\
   torque_enabled (self w0)
     = replicate (length (motors (self w0))) (all_torque_enabled (self w0))) /\
  mode_inv w /\
  let w' := exec toggle_all_torque w in
  mode_inv w' /\
  torque_enabled (self w')
    = replicate (length (motors (self w'))) (all_torque_enabled (self w')).
Proof.
  intros Hinit Hreach.
  destruct (init_facts _ _ _ _ _ Hinit) as (C0 & M0 & A0 & T0 & _).
  assert (I0 : mode_inv w0) by (unfold mode_inv; now rewrite C0, A0).
  split; [split; [exact I0|now rewrite T0, M0, A0]|].
  split; [exact (reachable_mode_inv _ _ I0 Hreach)|].
  destruct (toggle_all_torque_facts w) as (_ & P & _ & _ & T & TE & _ & _ & _ & M & _).
  cbn zeta. split.
  - unfold mode_inv. now rewrite P, T.
  - now rewrite TE, M, T.
Qed.

Lemma passivity_iff_torque_off_witness :
  mode_inv hand_guided_synced /\
  mode_inv (exec toggle_all_torque hand_guided_synced) /\
  torque_enabled (self (exec toggle_all_torque hand_guided_synced))
    = [true; true; true; true; true; true; true].
Proof.
  destruct (passivity_iff_torque_off motors_table false true NoFile power_on
              hand_guided_synced eq_refl) as (_ & H1 & H2 & H3).
  - eapply reach_step; [eapply reach_step; [eapply reach_step; [apply reach_start|]|]|].
    + apply step_toggle_all.
    + apply (step_receive "Feedback:100,200,300,600,700,10,400").
    + apply step_tick.
  - split; [exact H1|]. split; [exact H2|exact H3].
Defined.

(** ** The preset file *)

(** C9, as the code has it: without a file the built-in presets are
    used; a stored mapping is cut to its first four entries; text that is
    not JSON is not handled: [JSONDecodeError] leaves
    [_load_custom_presets] and [MotorController.__init__]. *)
Theorem preset_file_loading :
  _load_custom_presets NoFile = Ok builtin_custom_presets /\
  (forall presets,
      _load_custom_presets (JsonObject presets) = Ok (firstn 4 presets) /\
      (length (firstn 4 presets) <= 4)%nat) /\
  _load_custom_presets NotJson = Raise JSONDecodeError /\
  (forall table cfg port_ok,
      MotorController__init__ table cfg port_ok NotJson = Raise JSONDecodeError).
Proof.
  split; [reflexivity|]. split; [|split; [reflexivity|reflexivity]].
  intros presets. split; [|rewrite length_firstn; lia].
  unfold _load_custom_presets, json_load.
  destruct (4 <? length presets)%nat eqn:E; [reflexivity|].
  apply Nat.ltb_ge in E. now rewrite firstn_all2.
Qed.

(** C9 fails for a file that is not JSON: nothing falls back to the
    built-in presets, the decoding error reaches the caller. *)
Lemma malformed_preset_file_raises :
  _load_custom_presets NotJson <> Ok builtin_custom_presets /\
  _load_custom_presets NotJson = Raise JSONDecodeError /\
  MotorController__init__ motors_table (Config_at_startup false) true NotJson
    = Raise JSONDecodeError.
Proof. split; [discriminate|]. split; reflexivity. Qed.

(** ** Jogging a joint *)

Lemma Qle_bool_false a b : Qle_bool a b = false -> (b < a)%Q.
Proof.
  intros H. apply Qnot_le_lt. intros Hle. apply Qle_bool_iff in Hle. congruence.
Qed.

Lemma jog_up_in_range lo hi old s :
  (0 <= s)%Q -> (lo <= old)%Q -> (old <= hi)%Q ->
  (lo <= Py.min hi (old + s) /\ Py.min hi (old + s) <= hi)%Q.
Proof.
  intros Hs Hlo Hhi. unfold Py.min.
  destruct (Qle_bool hi (old + s)) eqn:E.
  - split; lra.
  - apply Qle_bool_false in E. split; lra.
Qed.

Lemma jog_down_in_range lo hi old s :
  (0 <= s)%Q -> (lo <= old)%Q -> (old <= hi)%Q ->
  (lo <= Py.max lo (old - s) /\ Py.max lo (old - s) <= hi)%Q.
Proof.
  intros Hs Hlo Hhi. unfold Py.max.
  destruct (Qle_bool (old - s) lo) eqn:E.
  - split; lra.
  - apply Qle_bool_false in E. split; lra.
Qed.

Lemma update_target_in_range w motor_index direction step_size i :
  0 <= step_size ->
  target_in_range (self w) i ->
  target_in_range (self (exec (update_target motor_index direction step_size) w)) i.
Proof.
  intros Hstep (m & t & Hm & Ht & Hlo & Hhi).
  assert (Hs : (0 <= inject_Z step_size)%Q)
    by (change 0%Q with (inject_Z 0); now rewrite <- Zle_Qle).
  unfold exec, update_target.
  unfold bind at 1, passivity_mode at 1.
  destruct (PASSIVITY_MODE (config w)); [exists m, t; auto|].
  unfold bind at 1, attr at 1.
  destruct (negb _) eqn:Hidx; [exists m, t; auto|].
  apply negb_false_iff, andb_prop in Hidx as [H0 Hn].
  apply Z.leb_le in H0. apply Z.ltb_lt in Hn.
  set (j := Z.to_nat motor_index).
  unfold bind at 1, item at 1.
  destruct (motors (self w) !! j) as [motor|] eqn:Hmotor; [|exists m, t; auto].
  unfold ret at 1.
  unfold bind at 1, getitem at 1, bind at 1, attr at 1, item at 1.
  cbn [lget Target].
  destruct (target_positions (self w) !! j) as [old|] eqn:Hold; [|exists m, t; auto].
  unfold ret at 1.
  set (new_target := if String.eqb direction "increase" then _ else _).
  assert (Hnew : i = j ->
            (inject_Z (min_val m) <= new_target /\ new_target <= inject_Z (max_val m))%Q).
  { intros ->. rewrite Hm in Hmotor. injection Hmotor as <-.
    rewrite Ht in Hold. injection Hold as <-.
    unfold new_target, Py.float. destruct (String.eqb direction "increase").
    - now apply jog_up_in_range.
    - now apply jog_down_in_range. }
  clearbody new_target.
  pose proof (lookup_lt_Some _ _ _ Hold) as Lj.
  destruct (Qeq_bool new_target old).
  - (* the target is not written *)
    assert (Hkeep : forall (k : M unit),
              (forall w1, target_positions (self (snd (k w1))) = target_positions (self w1)
                       /\ motors (self (snd (k w1))) = motors (self w1)) ->
              target_in_range (self (snd (bind k (fun _ => ret false) w))) i).
    { intros k Hk. destruct (Hk w) as [Hkt Hkm]. unfold bind, ret.
      destruct (k w) as [[[]|e] w1]; cbn [snd] in *; exists m, t;
        rewrite Hkt, Hkm; auto. }
    apply Hkeep. intros w1. destruct (_ || _).
    + unfold setitem, bind, attr. destruct (_ <? _)%nat; split; reflexivity.
    + split; reflexivity.
  - unfold bind at 1. rewrite setitem_ok by exact Lj.
    set (w1 := set_self _ w).
    assert (Hw1 : target_in_range (self w1) i).
    { unfold w1. cbn [self set_self lset Target lget]. 
      destruct (Nat.eq_dec i j) as [Hij|Hij].
      - exists m, new_target. split; [exact Hm|]. split; [|now apply Hnew].
        simpl. rewrite Hij. now apply list_lookup_insert_eq.
      - exists m, t. split; [exact Hm|]. split; [|auto].
        simpl. rewrite list_lookup_insert_ne by auto. exact Ht. }
    clearbody w1.
    destruct Hw1 as (m1 & t1 & Hm1 & Ht1 & Hr1).
    assert (Hkeep : forall (k : M unit),
              (forall w2, target_positions (self (snd (k w2))) = target_positions (self w2)
                       /\ motors (self (snd (k w2))) = motors (self w2)) ->
              target_in_range (self (snd (bind k (fun _ => ret true) w1))) i).
    { intros k Hk. destruct (Hk w1) as [Hkt Hkm]. unfold bind, ret.
      destruct (k w1) as [[[]|e] w2]; cbn [snd] in *; exists m1, t1;
        rewrite Hkt, Hkm; auto. }
    apply Hkeep. intros w2. destruct (_ || _).
    + unfold setitem, bind, attr. destruct (_ <? _)%nat; split; reflexivity.
    + unfold setitem, bind, attr. destruct (_ <? _)%nat; split; reflexivity.
Qed.

Lemma jog_in_range calls : forall w i,
  Forall (fun call : Z * string * Z => 0 <= snd call) calls ->
  target_in_range (self w) i ->
  Forall (fun w' => target_in_range (self w') i) (jog calls w).
Proof.
  induction calls as [|[[motor_index direction] step_size] calls IH];
    intros w i Hsteps Hw; simpl.
  - constructor.
  - inversion Hsteps as [|? ? Hstep Hrest]; subst. cbn [snd] in Hstep.
    pose proof (update_target_in_range w motor_index direction step_size i Hstep Hw) as Hw'.
    constructor; [exact Hw'|]. now apply IH.
Qed.

(** C4: let the controller be built over a joint table in which joint
    [i] has [min_val <= default_pos <= max_val].  After each call of any
    sequence of [update_target] calls, for any joint index, direction and
    step size that is not negative, the target of joint [i] lies between
    [min_val] and [max_val] of its configuration. *)
Theorem targets_stay_in_range table cfg port_ok f w0 i m calls :
  MotorController__init__ table cfg port_ok f = Ok w0 ->
  table !! i = Some m ->
  min_val m <= default_pos m <= max_val m ->
  Forall (fun call : Z * string * Z => 0 <= snd call) calls ->
  Forall (fun w => target_in_range (self w) i) (jog calls w0).
Proof.
  intros Hinit Hm [Hlo Hhi] Hsteps.
  destruct (init_facts _ _ _ _ _ Hinit) as (_ & M0 & _ & _ & T0 & _).
  apply jog_in_range; [exact Hsteps|].
  exists m, (Py.float (default_pos m)). rewrite M0, T0.
  split; [exact Hm|]. split.
  - rewrite !list_lookup_fmap, Hm. reflexivity.
  - unfold Py.float. now rewrite <- !Zle_Qle.
Qed.

Lemma targets_stay_in_range_witness :
  Forall (fun w => target_in_range (self w) 1)
         (jog [(1, "increase", 400); (1, "decrease", 1000); (7, "increase", 1);
               (1, "increase", 3)] power_on).
Proof.
  apply (targets_stay_in_range motors_table (Config_at_startup false) true NoFile power_on 1%nat
           {| index := 1; name := "Shoulder"; min_val := 180; max_val := 845;
              default_pos := 512 |}).
  - reflexivity.
  - reflexivity.
  - simpl. lia.
  - repeat constructor; simpl; lia.
Defined.

Example jog_clamps :
  map (fun w => target_positions (self w) !! 1%nat)
      (jog [(1, "increase", 400); (1, "decrease", 1000); (7, "increase", 1);
            (1, "increase", 3)] power_on)
  = [Some 845%Q; Some 180%Q; Some 180%Q; Some (183 # 1)%Q].
Proof. reflexivity. Qed.

(** ** Lines that are turned down *)

Lemma process_feedback_unfold w :
  process_feedback w =
    if negb (PASSIVITY_MODE (config w)) && negb (waiting_for_positions (self w))
    then drain_queue w
    else (data <- get_received_data ;;
          match data with
          | Some (String _ _ as line) => try_except (dispatch line) (fun _ => ret tt)
          | _ => ret tt
          end) w.
Proof.
  unfold process_feedback, bind at 1, passivity_mode at 1, bind at 1, attr at 1.
  now destruct (negb _ && negb _).
Qed.

Lemma drain_ok k : forall w, exists w', drain k w = (Ok tt, w').
Proof.
  induction k as [|k IH]; intros w; simpl; [eexists; reflexivity|].
  unfold bind. destruct (get_received_data w) as [[[x|]|e] w1] eqn:E.
  - apply IH.
  - eexists; reflexivity.
  - unfold get_received_data in E. destruct (DEV_MODE _); [discriminate E|].
    destruct (receive_queue _); discriminate E.
Qed.






(** ** Saving a preset in passivity mode *)








Example save_succeeds_on_positions :
  let clock := [[]; ["Feedback:1,2,3,4,5,6,7"]; ["Positions:1,2,3,4,5,6,7"]] in
  let w' := exec (save_custom_preset 1 clock) hand_guided_synced in
  eval (save_custom_preset 1 clock) hand_guided_synced = Ok true /\
  Dict.get (custom_presets (self w')) "Custom 2" = Some [1; 2; 3; 4; 5; 6; 7] /\
  custom_presets_json w' = JsonObject (custom_presets (self w')).
Proof. vm_compute. repeat split. Qed.

(** ** The display smoother *)

Lemma update_positions_ticks w :
  fits (self w) ->
  exists w', update_positions w = (Ok tt, w') /\
    config w' = config w /\ motors (self w') = motors (self w) /\
    (forall i, (i < length (motors (self w)))%nat ->
        joint (self w') i = tick <$> joint (self w) i) /\
    fits (self w').
Proof.
  intros Hfit. set (n := length (motors (self w))).
  destruct (for_each_acts (fun _ => True) ease_joint (fun _ x => ease x) (seq 0 n)
              ease_joint_acts (NoDup_seq 0 n) w) as (w1 & E1 & O1 & J1 & _).
  { intros i Hi. apply elem_of_seq in Hi. split; [exact I|].
    apply fits_joint; [exact Hfit|]. fold n. lia. }
  set (w' := set_self (set_current_positions (display_positions (self w1)) (self w1)) w1).
  assert (Hw1 : config w1 = config w /\ motors (self w1) = motors (self w)).
  { rewrite O1. split; reflexivity. }
  assert (J' : forall i, (i < n)%nat -> joint (self w') i = tick <$> joint (self w) i).
  { intros i Hi. specialize (J1 i). rewrite elem_of_seq in J1.
    destruct (fits_joint _ _ Hfit Hi) as [x Hx].
    rewrite Hx in *. cbn [fmap option_fmap option_map] in *.
    destruct (joint_Some _ _ _ (J1 ltac:(lia))) as (Ht & Hd & _ & Hs & Hb).
    unfold joint, w'. simpl. rewrite Ht, Hd, Hs, Hb. reflexivity. }
  exists w'. split; [|split; [|split; [|split]]].
  - unfold update_positions, bind at 1, attr at 1. fold n. unfold for_range.
    erewrite bind_ok by exact E1. reflexivity.
  - apply Hw1.
  - apply Hw1.
  - exact J'.
  - apply joints_fit. intros i Hi.
    change (motors (self w')) with (motors (self w1)) in Hi.
    destruct Hw1 as [_ Hm]. rewrite Hm in Hi. rewrite (J' i Hi).
    destruct (fits_joint _ _ Hfit Hi) as [x ->]. eexists. reflexivity.
Qed.



Lemma absorbed_fits w w' (report : list Q) :
  fits (self w) ->
  motors (self w') = motors (self w) ->
  (forall i, (i < length (motors (self w)))%nat ->
      joint (self w') i = absorb (nth i report 0%Q) <$> joint (self w) i) ->
  fits (self w').
Proof.
  intros Hfit Hm J. apply joints_fit. intros i Hi. rewrite Hm in Hi.
  rewrite (J i Hi). destruct (fits_joint _ _ Hfit Hi) as [x ->]. eexists. reflexivity.
Qed.




Example display_converges :
  map (fun k => display_positions
                  (self (Nat.iter k (exec update_positions)
                           (exec process_feedback hand_guided_moved))) !! 0%nat)
      [0; 1; 2]%nat
  = [Some 100; Some (11500 # 100); Some (127750000 # 1000000)]%Q.
Proof. vm_compute. reflexivity. Qed.

(** ** Joint states in passivity mode *)




(** * Further properties *)

(** ** Polling the queue *)

Lemma with_queue_same w : with_queue (receive_queue (serial (self w))) w = w.
Proof. destruct w as [cfg [? ? ? ? ? ? ? ? ? ? ? [] ? ?] f]. reflexivity. Qed.

Lemma drain_empties k : forall w,
  DEV_MODE (config w) = false ->
  (length (receive_queue (serial (self w))) < k)%nat ->
  drain k w = (Ok tt, with_queue [] w).
Proof.
  induction k as [|k IH]; intros w Hd Hk; [lia|].
  simpl. unfold bind, get_received_data. rewrite Hd.
  destruct (receive_queue (serial (self w))) as [|x q] eqn:Eq.
  - unfold ret. now rewrite <- Eq, with_queue_same.
  - fold (with_queue q w). rewrite IH.
    + reflexivity.
    + exact Hd.
    + simpl in *. lia.
Qed.

Lemma dispatch_keeps_queue line :
  keeps (fun w => receive_queue (serial (self w))) (dispatch line).
Proof. keeps_auto. Qed.

Lemma process_feedback_returns w : exists w', process_feedback w = (Ok tt, w').
Proof.
  rewrite process_feedback_unfold.
  destruct (negb _ && negb _).
  - unfold drain_queue, bind, attr.
    apply (drain_ok (S (length (receive_queue (serial (self w))))) w).
  - unfold bind. destruct (get_received_data w) as [[[[|c l]|]|e] w1] eqn:E.
    + eexists. reflexivity.
    + unfold try_except. destruct (dispatch (String c l) w1) as [[[]|e] w2];
        eexists; reflexivity.
    + eexists. reflexivity.
    + unfold get_received_data in E. destruct (DEV_MODE _); [discriminate E|].
      destruct (receive_queue _); discriminate E.
Qed.

(** X1.  No exception leaves [process_feedback], whatever is queued and
    however long the per-joint lists are. *)
Theorem process_feedback_never_raises w : eval process_feedback w = Ok tt.
Proof. unfold eval. now destruct (process_feedback_returns w) as [w' ->]. Qed.

(** X2.  In normal mode, with no preset save pending, [process_feedback] throws
    away everything that is queued and changes nothing else. *)
Theorem normal_mode_drains w :
  PASSIVITY_MODE (config w) = false ->
  waiting_for_positions (self w) = false ->
  DEV_MODE (config w) = false ->
  exec process_feedback w = with_queue [] w.
Proof.
  intros Hp Hw Hd. unfold exec. rewrite process_feedback_unfold, Hp, Hw.
  cbn [negb andb]. unfold drain_queue, bind, attr.
  rewrite drain_empties by (auto; lia). reflexivity.
Qed.

Lemma normal_mode_drains_witness :
  let w := exec (for_each ["Feedback:1,2,3,4,5,6,7"; "Positions:1,2"; "ready"] _receive_loop)
                power_on in
  exec process_feedback w = with_queue [] w.
Proof.
  apply (normal_mode_drains
           (exec (for_each ["Feedback:1,2,3,4,5,6,7"; "Positions:1,2"; "ready"] _receive_loop)
                 power_on)).
  - vm_compute. reflexivity.
  - vm_compute. reflexivity.
  - vm_compute. reflexivity.
Defined.

(** X3.  In passivity mode, or while a preset save waits for positions,
    [process_feedback] takes exactly the oldest line from the queue; a line
    that starts with neither ["Positions:"] nor ["Feedback:"] is taken and
    nothing else changes. *)
Theorem polls_one_line w :
  PASSIVITY_MODE (config w) = true \/ waiting_for_positions (self w) = true ->
  DEV_MODE (config w) = false ->
  receive_queue (serial (self (exec process_feedback w)))
    = tail (receive_queue (serial (self w))) /\
  forall line q,
    receive_queue (serial (self w)) = line :: q ->
    Py.startswith line "Positions:" = false ->
    Py.startswith line "Feedback:" = false ->
    exec process_feedback w = with_queue q w.
Proof.
  intros Hm Hd.
  assert (Hc : negb (PASSIVITY_MODE (config w)) && negb (waiting_for_positions (self w))
               = false).
  { destruct Hm as [-> | ->]; [reflexivity|apply andb_false_r]. }
  unfold exec. rewrite process_feedback_unfold, Hc.
  unfold bind, get_received_data. rewrite Hd.
  destruct (receive_queue (serial (self w))) as [|line q] eqn:Eq.
  - split; [unfold ret; cbn [snd]; now rewrite Eq|]. intros ? ? [=].
  - fold (with_queue q w). split.
    + destruct line as [|c l]; [reflexivity|].
      pose proof (keeps_try_except _ (dispatch (String c l)) (fun _ => ret tt)
                    (dispatch_keeps_queue _)
                    (fun _ => keeps_ret (fun w => receive_queue (serial (self w))) tt)
                    (with_queue q w)) as Hk.
      exact Hk.
    + intros line' q' [= <- <-] Hpos Hfb.
      destruct line as [|c l]; [reflexivity|].
      unfold try_except, dispatch. rewrite Hpos, Hfb. reflexivity.
Qed.

Lemma polls_one_line_witness :
  let w := exec (for_each ["ready"; "Feedback:1,2,3,4,5,6,7"] _receive_loop) hand_guided in
  receive_queue (serial (self (exec process_feedback w))) = ["Feedback:1,2,3,4,5,6,7"] /\
  exec process_feedback w = with_queue ["Feedback:1,2,3,4,5,6,7"] w.
Proof.
  destruct (polls_one_line
              (exec (for_each ["ready"; "Feedback:1,2,3,4,5,6,7"] _receive_loop) hand_guided))
    as [H1 H2].
  - left. vm_compute. reflexivity.
  - vm_compute. reflexivity.
  - split; [exact H1|].
    apply (H2 "ready" ["Feedback:1,2,3,4,5,6,7"]); vm_compute; reflexivity.
Defined.

(** ** Reports that are not applied *)

Lemma dispatch_rejected w line :
  PASSIVITY_MODE (config w) = false \/
  feedback_report (length (motors (self w))) line = None ->
  joint_lists (snd (dispatch line w)) = joint_lists w.
Proof.
  intros H. unfold dispatch.
  destruct (Py.startswith line "Positions:").
  { revert w H. intros w _. revert w.
    change (keeps joint_lists
              (match ints_of (Py.split "," (Py.drop (String.length "Positions:") line)) with
               | Some positions =>
                   waiting <- attr waiting_for_positions ;;
                   if waiting then assign (set_passivity_presets positions) else ret tt
               | None => raise ValueError
               end)).
    keeps_auto. }
  unfold feedback_report, feedback_fields in H.
  destruct (Py.startswith line "Feedback:"); [|reflexivity].
  unfold bind at 1, passivity_mode at 1.
  destruct (PASSIVITY_MODE (config w)); [|reflexivity].
  destruct H as [H|H]; [discriminate H|].
  cbn [negb]. unfold bind at 1, attr at 1.
  destruct (_ <? _)%nat; [reflexivity|].
  now rewrite H.
Qed.

Lemma process_feedback_rejected w :
  (forall line q,
      receive_queue (serial (self w)) = line :: q ->
      PASSIVITY_MODE (config w) = false \/
      feedback_report (length (motors (self w))) line = None) ->
  joint_lists (exec process_feedback w) = joint_lists w.
Proof.
  intros H. unfold exec. rewrite process_feedback_unfold.
  destruct (negb _ && negb _).
  - assert (Hk : keeps joint_lists drain_queue) by keeps_auto. apply Hk.
  - unfold bind, get_received_data. destruct (DEV_MODE (config w)); [reflexivity|].
    destruct (receive_queue (serial (self w))) as [|line q] eqn:Eq; [reflexivity|].
    fold (with_queue q w). destruct line as [|c l]; [reflexivity|].
    pose proof (dispatch_rejected (with_queue q w) (String c l) (H _ _ eq_refl)) as Hr.
    unfold try_except.
    destruct (dispatch (String c l) (with_queue q w)) as [[[]|e] w1]; exact Hr.
Qed.


(** X4.  In normal mode [process_feedback] never writes a joint: targets,
    displayed and current positions, states and synchronisation flags are
    as before, whatever was queued and whether or not a preset save is
    pending. *)
Theorem normal_mode_ignores_feedback w :
  PASSIVITY_MODE (config w) = false ->
  joint_lists (exec process_feedback w) = joint_lists w.
Proof. intros Hp. apply process_feedback_rejected. intros. now left. Qed.

Lemma normal_mode_ignores_feedback_witness :
  let w := exec (_receive_loop "Feedback:1,2,3,4,5,6,7") power_on in
  joint_lists (exec process_feedback w) = joint_lists w.
Proof.
  apply (normal_mode_ignores_feedback (exec (_receive_loop "Feedback:1,2,3,4,5,6,7") power_on)).
  vm_compute. reflexivity.
Defined.



(** ** The reader thread *)

Lemma receive_one raw w :
  _receive_loop raw w =
    (Ok tt,
     if is_connected (serial (self w))
     then with_queue (receive_queue (serial (self w)) ++ queued [raw]) w
     else w).
Proof.
  unfold _receive_loop, bind, attr, queued. cbn [map List.filter].
  destruct (is_connected (serial (self w))); [|reflexivity].
  destruct (Py.strip raw) as [|c l]; cbn [String.eqb negb ret].
  - now rewrite app_nil_r, with_queue_same.
  - reflexivity.
Qed.

Lemma receive_all raws : forall w,
  for_each raws _receive_loop w =
    (Ok tt,
     if is_connected (serial (self w))
     then with_queue (receive_queue (serial (self w)) ++ queued raws) w
     else w).
Proof.
  induction raws as [|raw raws IH]; intros w; simpl.
  - unfold queued. simpl. rewrite app_nil_r, with_queue_same.
    now destruct (is_connected _).
  - erewrite bind_ok by apply receive_one.
    destruct (is_connected (serial (self w))) eqn:Ec.
    + rewrite IH. cbn [with_queue self set_self serial set_serial
        is_connected set_receive_queue receive_queue]. rewrite Ec.
      unfold with_queue. cbn [self set_self serial set_serial set_receive_queue
        is_connected arduino_out receive_queue].
      rewrite <- app_assoc. unfold queued. cbn [map List.filter].
      destruct (negb (String.eqb (Py.strip raw) "")); reflexivity.
    + now rewrite IH, Ec.
Qed.

(** X6.  The reader thread does no decoding: while the port is connected, the
    lines it reads are stripped of surrounding white space, blank lines
    are dropped, and the rest is appended to the queue in the order read,
    with nothing else changed.  Without a connection nothing is queued. *)
Theorem reader_queues_in_order raws w :
  eval (for_each raws _receive_loop) w = Ok tt /\
  exec (for_each raws _receive_loop) w =
    if is_connected (serial (self w))
    then with_queue (receive_queue (serial (self w)) ++ queued raws) w
    else w.
Proof. unfold eval, exec. rewrite receive_all. split; reflexivity. Qed.

(** ** The preset store *)

Lemma dict_get_set_eq {V} (d : dict V) k v : Dict.get (Dict.set d k v) k = Some v.
Proof.
  induction d as [|[k' v'] d IH]; simpl.
  - now rewrite String.eqb_refl.
  - destruct (String.eqb k' k) eqn:E; simpl.
    + now rewrite String.eqb_refl.
    + now rewrite E.
Qed.

Lemma dict_get_set_ne {V} (d : dict V) k v k' :
  k' <> k -> Dict.get (Dict.set d k v) k' = Dict.get d k'.
Proof.
  intros Hne. induction d as [|[k0 v0] d IH]; simpl.
  - apply String.eqb_neq in Hne. rewrite String.eqb_sym in Hne. now rewrite Hne.
  - destruct (String.eqb k0 k) eqn:E; simpl.
    + apply String.eqb_eq in E. subst k0.
      apply String.eqb_neq in Hne. rewrite String.eqb_sym in Hne. now rewrite Hne.
    + destruct (String.eqb k0 k'); [reflexivity|exact IH].
Qed.

Lemma dict_get_None_keys {V} (d : dict V) k : Dict.get d k = None <-> ~ In k (map fst d).
Proof.
  induction d as [|[k' v'] d IH]; simpl.
  - tauto.
  - destruct (String.eqb k' k) eqn:E.
    + apply String.eqb_eq in E. split; [discriminate|]. intros H. exfalso. apply H. now left.
    + apply String.eqb_neq in E. rewrite IH. tauto.
Qed.

Lemma dict_set_absent {V} (d : dict V) k v :
  Dict.get d k = None -> Dict.set d k v = (d ++ [(k, v)])%list.
Proof.
  induction d as [|[k' v'] d IH]; simpl; [reflexivity|].
  destruct (String.eqb k' k); [discriminate|]. intros H. now rewrite IH.
Qed.

Lemma dict_set_present {V} (d : dict V) k v v0 :
  Dict.get d k = Some v0 -> map fst (Dict.set d k v) = map fst d.
Proof.
  induction d as [|[k' v'] d IH]; simpl; [discriminate|].
  destruct (String.eqb k' k) eqn:E; simpl.
  - apply String.eqb_eq in E. now subst.
  - intros H. now rewrite IH.
Qed.

Lemma slot_name_listed slot : 0 <= slot < 4 -> In (preset_name_of slot) slot_names.
Proof.
  intros H. assert (Hs : slot = 0 \/ slot = 1 \/ slot = 2 \/ slot = 3) by lia.
  destruct Hs as [-> | [-> | [-> | ->]]]; vm_compute; auto.
Qed.

Lemma slots_only_set d slot v :
  0 <= slot < 4 -> slots_only d -> slots_only (Dict.set d (preset_name_of slot) v).
Proof.
  intros Hslot [Hnd Hincl]. unfold slots_only.
  destruct (Dict.get d (preset_name_of slot)) as [v0|] eqn:Eg.
  - rewrite (dict_set_present _ _ _ _ Eg). auto.
  - rewrite (dict_set_absent _ _ _ Eg), map_app. simpl. split.
    + apply NoDup_ListNoDup. apply NoDup_ListNoDup in Hnd.
      apply List.NoDup_app; [exact Hnd|repeat constructor; intros []|].
      intros x Hx Hk. destruct Hk as [Hk|Hk]; [subst x|destruct Hk].
      now apply dict_get_None_keys in Eg.
    + intros x Hx. apply in_app_or in Hx as [Hx|Hx]; [now apply Hincl|].
      destruct Hx as [Hx|Hx]; [subst x|destruct Hx].
      now apply slot_name_listed.
Qed.

Lemma slots_only_short d : slots_only d -> (length d <= 4)%nat.
Proof.
  intros [Hnd Hincl]. apply NoDup_ListNoDup in Hnd.
  pose proof (List.NoDup_incl_length Hnd Hincl) as H.
  now rewrite length_map in H.
Qed.

Lemma normal_save_run w slot clock :
  PASSIVITY_MODE (config w) = false ->
  0 <= slot < 4 ->
  save_custom_preset slot clock w =
    (Ok true,
     set_custom_presets_json
       (JsonObject (Dict.set (custom_presets (self w)) (preset_name_of slot)
                             (map Py.int (target_positions (self w)))))
       (set_self (set_custom_presets
                    (Dict.set (custom_presets (self w)) (preset_name_of slot)
                              (map Py.int (target_positions (self w)))) (self w)) w)).
Proof.
  intros Hp Hslot.
  assert (Hs : (0 <=? slot) && (slot <? 4) = true).
  { apply andb_true_intro. split; [apply Z.leb_le|apply Z.ltb_lt]; lia. }
  unfold save_custom_preset. rewrite Hs.
  unfold bind, passivity_mode, attr, assign, json_dump, ret. now rewrite Hp.
Qed.

Lemma load_custom_preset_run w slot preset :
  PASSIVITY_MODE (config w) = false ->
  0 <= slot < 4 ->
  Dict.get (custom_presets (self w)) (preset_name_of slot) = Some preset ->
  eval (load_custom_preset slot) w = Ok true /\
  target_positions (self (exec (load_custom_preset slot) w)) = map Py.float preset.
Proof.
  intros Hp Hslot Hget.
  assert (Hs : (0 <=? slot) && (slot <? 4) = true).
  { apply andb_true_intro. split; [apply Z.leb_le|apply Z.ltb_lt]; lia. }
  unfold eval, exec, load_custom_preset, send_control_command, bind, passivity_mode,
    attr, assign, ret. rewrite Hp, Hs, Hget. simpl. rewrite Hp, send_ok.
  cbn [fst snd]. rewrite written_self. simpl. split; reflexivity.
Qed.

(** X7.  In normal mode [save_custom_preset] of a slot from 0 to 3 returns
    true, stores the truncated targets under the name of the slot, leaves
    the other names and the targets alone and writes the whole mapping to
    the file.  Whenever that mapping is in place and the mode is normal,
    [load_custom_preset] of the slot returns true and makes the targets the
    saved integers. *)
Theorem normal_save_then_load w slot clock :
  PASSIVITY_MODE (config w) = false ->
  0 <= slot < 4 ->
  let saved := map Py.int (target_positions (self w)) in
  let w1 := exec (save_custom_preset slot clock) w in
  eval (save_custom_preset slot clock) w = Ok true /\
  Dict.get (custom_presets (self w1)) (preset_name_of slot) = Some saved /\
  (forall name, name <> preset_name_of slot ->
      Dict.get (custom_presets (self w1)) name = Dict.get (custom_presets (self w)) name) /\
  custom_presets_json w1 = JsonObject (custom_presets (self w1)) /\
  target_positions (self w1) = target_positions (self w) /\
  forall w2,
    PASSIVITY_MODE (config w2) = false ->
    custom_presets (self w2) = custom_presets (self w1) ->
    eval (load_custom_preset slot) w2 = Ok true /\
    target_positions (self (exec (load_custom_preset slot) w2)) = map Py.float saved.
Proof.
  intros Hp Hslot saved w1.
  unfold w1, eval, exec. rewrite (normal_save_run w slot clock Hp Hslot). cbn [fst snd].
  split; [reflexivity|]. split; [apply dict_get_set_eq|].
  split; [intros name Hne; now apply dict_get_set_ne|].
  split; [reflexivity|]. split; [reflexivity|].
  intros w2 Hp2 Hc2. apply load_custom_preset_run; [exact Hp2|exact Hslot|].
  rewrite Hc2. apply dict_get_set_eq.
Qed.

Lemma normal_save_then_load_witness :
  let w := exec (update_target 0 "increase" 5) power_on in
  let w1 := exec (save_custom_preset 2 []) w in
  eval (save_custom_preset 2 []) w = Ok true /\
  Dict.get (custom_presets (self w1)) "Custom 3" = Some [517; 512; 380; 800; 700; 512; 512] /\
  target_positions (self (exec (load_custom_preset 2) (exec load_default_preset w1)))
    = map Py.float [517; 512; 380; 800; 700; 512; 512].
Proof.
  destruct (normal_save_then_load (exec (update_target 0 "increase" 5) power_on) 2 [])
    as (H1 & H2 & _ & _ & _ & H3).
  - vm_compute. reflexivity.
  - lia.
  - split; [exact H1|]. split; [exact H2|].
    apply (H3 (exec load_default_preset
                 (exec (save_custom_preset 2 []) (exec (update_target 0 "increase" 5) power_on)))).
    + vm_compute. reflexivity.
    + vm_compute. reflexivity.
Defined.

(** X8.  When every stored preset sits under the name of a slot, as with the
    built-in presets, a save in normal mode keeps it so, and what it wrote
    to the file is read back unchanged by [_load_custom_presets] at the
    next start. *)
Theorem saved_presets_survive_restart w slot clock :
  PASSIVITY_MODE (config w) = false ->
  0 <= slot < 4 ->
  slots_only (custom_presets (self w)) ->
  let w1 := exec (save_custom_preset slot clock) w in
  slots_only (custom_presets (self w1)) /\
  _load_custom_presets (custom_presets_json w1) = Ok (custom_presets (self w1)).
Proof.
  intros Hp Hslot Hd w1.
  unfold w1, exec. rewrite (normal_save_run w slot clock Hp Hslot). cbn [snd].
  cbn [custom_presets_json set_custom_presets_json self set_self custom_presets
       set_custom_presets].
  pose proof (slots_only_set _ slot (map Py.int (target_positions (self w))) Hslot Hd) as Hd'.
  split; [exact Hd'|].
  unfold _load_custom_presets, json_load.
  apply slots_only_short in Hd'.
  destruct (4 <? _)%nat eqn:E; [|reflexivity].
  apply Nat.ltb_lt in E. lia.
Qed.

Lemma saved_presets_survive_restart_witness :
  let w1 := exec (save_custom_preset 0 []) power_on in
  slots_only (custom_presets (self w1)) /\
  _load_custom_presets (custom_presets_json w1) = Ok (custom_presets (self w1)).
Proof.
  apply (saved_presets_survive_restart power_on 0 []).
  - reflexivity.
  - lia.
  - split.
    + apply NoDup_ListNoDup. vm_compute.
      repeat (constructor; [intros H; repeat (destruct H as [H|H]; [discriminate H|]);
                            destruct H|]).
      constructor.
    + intros x Hx. exact Hx.
Defined.

(** X9.  The cap of four entries cuts what was saved last: when the mapping
    already has four or more entries and none under the name of the slot,
    the preset that a save in normal mode adds is in memory and in the
    file, but [_load_custom_presets] drops it at the next start. *)
Theorem fifth_preset_lost_on_restart w slot clock :
  PASSIVITY_MODE (config w) = false ->
  0 <= slot < 4 ->
  Dict.get (custom_presets (self w)) (preset_name_of slot) = None ->
  (4 <= length (custom_presets (self w)))%nat ->
  let w1 := exec (save_custom_preset slot clock) w in
  Dict.get (custom_presets (self w1)) (preset_name_of slot)
    = Some (map Py.int (target_positions (self w))) /\
  exists d, _load_custom_presets (custom_presets_json w1) = Ok d /\
            Dict.get d (preset_name_of slot) = None.
Proof.
  intros Hp Hslot Hnone Hlen w1.
  unfold w1, exec. rewrite (normal_save_run w slot clock Hp Hslot). cbn [snd].
  cbn [custom_presets_json set_custom_presets_json self set_self custom_presets
       set_custom_presets].
  split; [apply dict_get_set_eq|].
  rewrite (dict_set_absent _ _ _ Hnone).
  exists (firstn 4 (custom_presets (self w))). split.
  - unfold _load_custom_presets, json_load. rewrite length_app. simpl.
    destruct (4 <? _)%nat eqn:E; [|apply Nat.ltb_ge in E; lia].
    rewrite firstn_app.
    replace (4 - length (custom_presets (self w)))%nat with 0%nat by lia.
    simpl. now rewrite app_nil_r.
  - apply dict_get_None_keys. intros Hin.
    apply dict_get_None_keys in Hnone. apply Hnone.
    rewrite <- (firstn_skipn 4 (custom_presets (self w))), map_app.
    apply in_or_app. now left.
Qed.

Example power_on_renamed_is_init :
  MotorController__init__ motors_table (Config_at_startup false) true
                          (JsonObject renamed_presets) = Ok power_on_renamed.
Proof. reflexivity. Qed.

Lemma fifth_preset_lost_on_restart_witness :
  let w1 := exec (save_custom_preset 0 []) power_on_renamed in
  Dict.get (custom_presets (self w1)) "Custom 1" = Some [512; 512; 380; 800; 700; 512; 512] /\
  exists d, _load_custom_presets (custom_presets_json w1) = Ok d /\
            Dict.get d "Custom 1" = None.
Proof.
  apply (fifth_preset_lost_on_restart power_on_renamed 0 []).
  - reflexivity.
  - lia.
  - reflexivity.
  - vm_compute. lia.
Defined.








(** ** Jogging, once more *)

Lemma update_target_run w motor_index direction step_size m old :
  PASSIVITY_MODE (config w) = false ->
  0 <= motor_index ->
  let i := Z.to_nat motor_index in
  motors (self w) !! i = Some m ->
  target_positions (self w) !! i = Some old ->
  (i < length (motor_states (self w)))%nat ->
  let new := jogged m direction step_size old in
  update_target motor_index direction step_size w =
    if Qeq_bool new old then
      (Ok false,
       if at_end m new
       then set_self (set_motor_states (<[i:=AT_LIMIT]> (motor_states (self w))) (self w)) w
       else w)
    else
      (Ok true,
       set_self
         (set_motor_states
            (<[i:=if at_end m new then AT_LIMIT else MOVING]> (motor_states (self w)))
            (set_target_positions (<[i:=new]> (target_positions (self w))) (self w))) w).
Proof.
  intros Hp H0 i Hm Ht Hs new.
  pose proof (lookup_lt_Some _ _ _ Hm) as Lm.
  pose proof (lookup_lt_Some _ _ _ Ht) as Lt.
  assert (Hidx : negb ((0 <=? motor_index) && (motor_index <? Z.of_nat (length (motors (self w)))))
                 = false).
  { apply negb_false_iff, andb_true_intro. split; [apply Z.leb_le|apply Z.ltb_lt]; lia. }
  unfold update_target.
  unfold bind at 1, passivity_mode at 1. rewrite Hp.
  unfold bind at 1, attr at 1. rewrite Hidx. fold i.
  erewrite bind_ok by (apply item_ok; exact Hm).
  erewrite bind_ok by (apply getitem_ok; exact Ht).
  fold (jogged m direction step_size old). fold new. fold (at_end m new).
  destruct (Qeq_bool new old).
  - destruct (at_end m new).
    + erewrite bind_ok by (apply setitem_ok; exact Hs). reflexivity.
    + reflexivity.
  - erewrite bind_ok by (apply setitem_ok; exact Lt).
    destruct (at_end m new).
    + erewrite bind_ok by (apply setitem_ok; exact Hs). reflexivity.
    + erewrite bind_ok by (apply setitem_ok; exact Hs). reflexivity.
Qed.

Lemma update_target_keeps_beside motor_index direction step_size :
  keeps beside_jog (update_target motor_index direction step_size).
Proof. keeps_auto. Qed.

(** X11.  [update_target] is refused, with false and no change at all, in
    passivity mode and for a joint index that is negative or not below the
    number of joints. *)
Theorem update_target_refused w motor_index direction step_size :
  PASSIVITY_MODE (config w) = true \/ motor_index < 0 \/
  Z.of_nat (length (motors (self w))) <= motor_index ->
  eval (update_target motor_index direction step_size) w = Ok false /\
  exec (update_target motor_index direction step_size) w = w.
Proof.
  intros H.
  assert (Hrun : update_target motor_index direction step_size w = (Ok false, w)).
  { unfold update_target. unfold bind at 1, passivity_mode at 1.
    destruct (PASSIVITY_MODE (config w)); [reflexivity|].
    destruct H as [H|H]; [discriminate H|].
    unfold bind at 1, attr at 1.
    assert (Hidx : negb ((0 <=? motor_index)
                         && (motor_index <? Z.of_nat (length (motors (self w))))) = true).
    { apply negb_true_iff, andb_false_iff.
      destruct H as [H|H]; [left; apply Z.leb_gt|right; apply Z.ltb_ge]; lia. }
    now rewrite Hidx. }
  unfold eval, exec. rewrite Hrun. split; reflexivity.
Qed.

Lemma update_target_refused_witness :
  eval (update_target 7 "increase" 5) power_on = Ok false /\
  exec (update_target 7 "increase" 5) power_on = power_on.
Proof.
  apply (update_target_refused power_on 7 "increase" 5).
  right. right. vm_compute. discriminate.
Defined.

(** X12.  In normal mode, on a joint that the lists cover, [update_target]
    returns true exactly when it gave the joint a target that differs from
    the old one, and then marks the joint [AT_LIMIT] if the new target is
    an end of its range and [MOVING] otherwise; when it returns false the
    targets are untouched.  It writes the target and the state of this one
    joint only: nothing is sent, and nothing else changes. *)
Theorem update_target_one_joint w motor_index direction step_size m old :
  PASSIVITY_MODE (config w) = false ->
  0 <= motor_index ->
  let i := Z.to_nat motor_index in
  motors (self w) !! i = Some m ->
  target_positions (self w) !! i = Some old ->
  (i < length (motor_states (self w)))%nat ->
  let w' := exec (update_target motor_index direction step_size) w in
  let new := jogged m direction step_size old in
  eval (update_target motor_index direction step_size) w = Ok (negb (Qeq_bool new old)) /\
  (Qeq_bool new old = true -> target_positions (self w') = target_positions (self w)) /\
  (Qeq_bool new old = false ->
     target_positions (self w') !! i = Some new /\
     motor_states (self w') !! i = Some (if at_end m new then AT_LIMIT else MOVING)) /\
  (forall j, j <> i ->
     target_positions (self w') !! j = target_positions (self w) !! j /\
     motor_states (self w') !! j = motor_states (self w) !! j) /\
  beside_jog w' = beside_jog w.
Proof.
  intros Hp H0 i Hm Ht Hs w' new.
  pose proof (lookup_lt_Some _ _ _ Ht) as Lt.
  split; [|split; [|split; [|split]]].
  - unfold eval. rewrite (update_target_run w _ direction step_size m old Hp H0 Hm Ht Hs).
    fold i new. now destruct (Qeq_bool new old).
  - intros E. unfold w', exec.
    rewrite (update_target_run w _ direction step_size m old Hp H0 Hm Ht Hs).
    fold i new. rewrite E. cbn [snd]. now destruct (at_end m new).
  - intros E. unfold w', exec.
    rewrite (update_target_run w _ direction step_size m old Hp H0 Hm Ht Hs).
    fold i new. rewrite E. cbn [snd]. simpl.
    split; now apply list_lookup_insert_eq.
  - intros j Hj. unfold w', exec.
    rewrite (update_target_run w _ direction step_size m old Hp H0 Hm Ht Hs).
    fold i new. destruct (Qeq_bool new old); cbn [snd].
    + destruct (at_end m new); simpl; [|split; reflexivity].
      split; [reflexivity|]. now apply list_lookup_insert_ne.
    + simpl. split; now apply list_lookup_insert_ne.
  - apply update_target_keeps_beside.
Qed.

Lemma update_target_one_joint_witness :
  let w' := exec (update_target 6 "increase" 500) power_on in
  eval (update_target 6 "increase" 500) power_on = Ok true /\
  target_positions (self w') !! 6%nat = Some 695%Q /\
  motor_states (self w') !! 6%nat = Some AT_LIMIT /\
  beside_jog w' = beside_jog power_on.
Proof.
  destruct (update_target_one_joint power_on 6 "increase" 500
              {| index := 6; name := "Hand"; min_val := 370; max_val := 695;
                 default_pos := 512 |} 512%Q) as (H1 & _ & H2 & _ & H3).
  - reflexivity.
  - lia.
  - reflexivity.
  - reflexivity.
  - vm_compute. lia.
  - split; [exact H1|]. destruct (H2 eq_refl) as [H2a H2b].
    split; [exact H2a|]. split; [exact H2b|exact H3].
Defined.

(** ** The torque of a single joint *)

Lemma py_index_in_range len i :
  0 <= i < Z.of_nat len -> py_index len i = Some (Z.to_nat i).
Proof.
  intros H. unfold py_index.
  replace ((0 <=? i) && (i <? Z.of_nat len)) with true; [reflexivity|].
  symmetry. apply andb_true_intro. split; [apply Z.leb_le|apply Z.ltb_lt]; lia.
Qed.

Lemma py_index_out_of_range len i :
  i < - Z.of_nat len \/ Z.of_nat len <= i -> py_index len i = None.
Proof.
  intros H. unfold py_index.
  replace ((0 <=? i) && (i <? Z.of_nat len)) with false.
  - replace ((- Z.of_nat len <=? i) && (i <? 0)) with false; [reflexivity|].
    symmetry. apply andb_false_iff.
    destruct H; [left; apply Z.leb_gt|right; apply Z.ltb_ge]; lia.
  - symmetry. apply andb_false_iff.
    destruct H; [left; apply Z.leb_gt|right; apply Z.ltb_ge]; lia.
Qed.

Lemma toggle_torque_run w motor_index b :
  0 <= motor_index < Z.of_nat (length (motors (self w))) ->
  torque_enabled (self w) !! Z.to_nat motor_index = Some b ->
  let flags := <[Z.to_nat motor_index := negb b]> (torque_enabled (self w)) in
  toggle_torque motor_index w =
    (Ok tt, written (torque_command flags) (set_self (set_torque_enabled flags (self w)) w)).
Proof.
  intros Hm Hb flags.
  pose proof (lookup_lt_Some _ _ _ Hb) as Lb.
  unfold toggle_torque. unfold bind at 1, attr at 1.
  rewrite py_index_in_range by lia.
  erewrite bind_ok by (apply getitem_ok; exact Hb).
  erewrite bind_ok by (apply setitem_ok; exact Lb).
  unfold send_torque_command.
  unfold bind at 1, bind at 1, bind at 1, attr at 1.
  cbn [self set_self lset Torque lget torque_enabled set_torque_enabled].
  rewrite send_ok. unfold ret at 1.
  unfold bind at 1, attr at 1.
  rewrite written_self. cbn [motors set_serial self set_self set_torque_enabled].
  now rewrite py_index_in_range by lia.
Qed.

Lemma forallb_insert_false (l : list bool) i :
  (i < length l)%nat -> forallb id (<[i:=false]> l) = false.
Proof.
  revert i. induction l as [|x l IH]; intros [|i] Hi; simpl in *; try lia;
    try reflexivity.
  rewrite IH by lia. apply andb_false_r.
Qed.

(** X13.  [toggle_torque] of a joint index that is in range flips the torque
    flag of that joint and no other, does not change the mode, the global
    torque flag or any joint state, and hands the port one torque command
    with the new flags when the link is up.  A second [toggle_torque] of
    the same joint restores the flags.  After a flag was turned off
    [are_all_torque_enabled] is false although [all_torque_enabled], which
    [toggle_all_torque] goes by, is as before. *)
Theorem toggle_torque_flips_one w motor_index b :
  0 <= motor_index < Z.of_nat (length (motors (self w))) ->
  torque_enabled (self w) !! Z.to_nat motor_index = Some b ->
  let flags := <[Z.to_nat motor_index := negb b]> (torque_enabled (self w)) in
  let w' := exec (toggle_torque motor_index) w in
  eval (toggle_torque motor_index) w = Ok tt /\
  torque_enabled (self w') = flags /\
  mode_flags w' = mode_flags w /\
  joint_lists w' = joint_lists w /\
  arduino_out (serial (self w')) =
    (arduino_out (serial (self w)) ++ if link_up w then [torque_command flags] else [])%list /\
  torque_enabled (self (exec (toggle_torque motor_index) w')) = torque_enabled (self w) /\
  (b = true -> eval are_all_torque_enabled w' = Ok false).
Proof.
  intros Hm Hb flags w'.
  pose proof (lookup_lt_Some _ _ _ Hb) as Lb.
  assert (Hw' : w' = written (torque_command flags)
                       (set_self (set_torque_enabled flags (self w)) w)).
  { unfold w', exec. now rewrite (toggle_torque_run w motor_index b Hm Hb). }
  assert (S' : self w' = _) by (rewrite Hw'; apply written_self).
  assert (C' : config w' = config w) by (rewrite Hw'; exact (written_config _ _)).
  assert (L : link_up (set_self (set_torque_enabled flags (self w)) w) = link_up w)
    by reflexivity.
  rewrite L in S'. cbn [self set_self serial set_torque_enabled arduino_out] in S'.
  split; [unfold eval; now rewrite (toggle_torque_run w motor_index b Hm Hb)|].
  split; [now rewrite S'|].
  split; [unfold mode_flags; now rewrite S', C'|].
  split; [unfold joint_lists; now rewrite S'|].
  split; [now rewrite S'|].
  split.
  - assert (Hb' : torque_enabled (self w') !! Z.to_nat motor_index = Some (negb b)).
    { rewrite S'. simpl. now apply list_lookup_insert_eq. }
    assert (Hm' : 0 <= motor_index < Z.of_nat (length (motors (self w')))).
    { rewrite S'. exact Hm. }
    unfold exec. rewrite (toggle_torque_run w' motor_index (negb b) Hm' Hb').
    cbn [snd]. rewrite written_self. cbn [torque_enabled set_serial self set_self
      set_torque_enabled]. rewrite S'. cbn [torque_enabled set_serial set_torque_enabled].
    unfold flags. rewrite list_insert_insert_eq, negb_involutive.
    now apply list_insert_id.
  - intros ->. unfold eval, are_all_torque_enabled, attr. cbn [fst]. rewrite S'.
    cbn [torque_enabled set_serial set_torque_enabled]. f_equal.
    now apply forallb_insert_false.
Qed.

Lemma toggle_torque_flips_one_witness :
  let w' := exec (toggle_torque 2) power_on in
  torque_enabled (self w') = [true; true; false; true; true; true; true] /\
  arduino_out (serial (self w')) = ["2,0,0,0,0,0,0,0*"; "1,1,1,0,1,1,1,1*"] /\
  all_torque_enabled (self w') = true /\
  eval are_all_torque_enabled w' = Ok false.
Proof.
  destruct (toggle_torque_flips_one power_on 2 true) as (_ & H1 & H2 & _ & H3 & _ & H4).
  - simpl. lia.
  - reflexivity.
  - split; [exact H1|]. split; [exact H3|]. split; [|exact (H4 eq_refl)].
    exact (f_equal snd H2).
Defined.

(** X14.  [toggle_torque] of an index beyond either end of [torque_enabled]
    raises [IndexError] and changes nothing. *)
Theorem toggle_torque_out_of_range w motor_index :
  motor_index < - Z.of_nat (length (torque_enabled (self w))) \/
  Z.of_nat (length (torque_enabled (self w))) <= motor_index ->
  eval (toggle_torque motor_index) w = Raise IndexError /\
  exec (toggle_torque motor_index) w = w.
Proof.
  intros H. unfold eval, exec, toggle_torque, bind, attr.
  rewrite (py_index_out_of_range _ _ H). split; reflexivity.
Qed.

Lemma toggle_torque_out_of_range_witness :
  eval (toggle_torque 7) power_on = Raise IndexError /\
  exec (toggle_torque 7) power_on = power_on.
Proof.
  apply (toggle_torque_out_of_range power_on 7). right. vm_compute. discriminate.
Defined.

(** ** The display smoother, once more *)













(** ** Rounds of the main loop *)

Lemma fits_same w w' :
  joint_lists w' = joint_lists w -> motors (self w') = motors (self w) ->
  fits (self w) -> fits (self w').
Proof.
  unfold joint_lists, fits. intros [= Ht Hd Hc Hs Hb] Hm. now rewrite Ht, Hd, Hc, Hs, Hb, Hm.
Qed.

Lemma process_feedback_keeps_motors : keeps (fun w => motors (self w)) process_feedback.
Proof. keeps_auto. Qed.

Lemma process_feedback_fits w : fits (self w) -> fits (self (exec process_feedback w)).
Proof.
  intros Hfit.
  destruct (PASSIVITY_MODE (config w)) eqn:Hp.
  2:{ apply (fits_same w); [|apply process_feedback_keeps_motors|exact Hfit].
      apply process_feedback_rejected. intros. now left. }
  destruct (DEV_MODE (config w)) eqn:Hd.
  { assert (E : process_feedback w = (Ok tt, w)).
    { rewrite process_feedback_unfold, Hp. cbn [negb andb].
      unfold bind, get_received_data. now rewrite Hd. }
    unfold exec. now rewrite E. }
  destruct (receive_queue (serial (self w))) as [|line q] eqn:Hq.
  { apply (fits_same w); [|apply process_feedback_keeps_motors|exact Hfit].
    apply process_feedback_rejected. intros line q Hq'. rewrite Hq in Hq'. discriminate Hq'. }
  destruct (feedback_report (length (motors (self w))) line) as [report|] eqn:Hr.
  - destruct (process_feedback_absorbs w line q report Hp Hd Hq Hr Hfit)
      as (w' & E & _ & M & J & _).
    unfold exec. rewrite E. exact (absorbed_fits w w' report Hfit M J).
  - apply (fits_same w); [|apply process_feedback_keeps_motors|exact Hfit].
    apply process_feedback_rejected. intros line' q' Hq'. rewrite Hq in Hq'.
    injection Hq' as <- <-. now right.
Qed.

(** X17.  On lists that cover the joints a round of the main loop,
    [process_feedback] and then [update_positions], returns normally in
    either mode, whatever is queued, and the lists still cover the
    joints. *)
Theorem update_is_safe w :
  fits (self w) ->
  eval update w = Ok tt /\ fits (self (exec update w)).
Proof.
  intros Hfit.
  destruct (process_feedback_returns w) as [w1 E1].
  assert (Hfit1 : fits (self w1)).
  { pose proof (process_feedback_fits w Hfit) as H. unfold exec in H. now rewrite E1 in H. }
  destruct (update_positions_ticks w1 Hfit1) as (w2 & E2 & _ & _ & _ & Hfit2).
  assert (Hu : update w = (Ok tt, w2)).
  { unfold update. erewrite bind_ok by exact E1. exact E2. }
  unfold eval, exec. rewrite Hu. split; [reflexivity|exact Hfit2].
Qed.

Lemma update_is_safe_witness :
  eval update hand_guided_moved = Ok tt /\ fits (self (exec update hand_guided_moved)).
Proof. apply (update_is_safe hand_guided_moved). unfold fits. vm_compute. lia. Defined.

Lemma raises_only_ret e0 {A} (a : A) : raises_only e0 (ret a).
Proof. intros w e w' H. discriminate H. Qed.

Lemma raises_only_attr e0 {A} (f : MotorController -> A) : raises_only e0 (attr f).
Proof. intros w e w' H. discriminate H. Qed.

Lemma raises_only_assign e0 upd : raises_only e0 (assign upd).
Proof. intros w e w' H. discriminate H. Qed.

Lemma raises_only_bind e0 {A B} (m : M A) (k : A -> M B) :
  raises_only e0 m -> (forall a, raises_only e0 (k a)) -> raises_only e0 (bind m k).
Proof.
  intros Hm Hk w e w'. unfold bind.
  destruct (m w) as [[a|e1] w1] eqn:E.
  - apply Hk.
  - intros [= <- <-]. exact (Hm _ _ _ E).
Qed.

Lemma raises_only_item {A} (l : list A) i : raises_only IndexError (item l i).
Proof. intros w e w'. unfold item. destruct (l !! i); [discriminate|]. now intros [= <-]. Qed.

Lemma raises_only_getitem {A} (f : list_attr A) i : raises_only IndexError (getitem f i).
Proof.
  apply raises_only_bind; [apply raises_only_attr|intros; apply raises_only_item].
Qed.

Lemma raises_only_setitem {A} (f : list_attr A) i v : raises_only IndexError (setitem f i v).
Proof.
  apply raises_only_bind; [apply raises_only_attr|intros l].
  destruct (_ <? _)%nat; [apply raises_only_assign|]. intros w e w'. now intros [= <-].
Qed.

Lemma ease_joint_raises_only i : raises_only IndexError (ease_joint i).
Proof.
  unfold ease_joint.
  repeat first
    [ apply raises_only_ret | apply raises_only_getitem | apply raises_only_setitem
    | apply raises_only_bind; [|intros]
    | match goal with |- raises_only _ (if ?b then _ else _) => destruct b end ].
Qed.

Lemma ease_joint_keeps_targets i : keeps (fun w => target_positions (self w)) (ease_joint i).
Proof. keeps_auto. Qed.

Lemma ease_joint_short i w :
  (length (target_positions (self w)) <= i)%nat -> ease_joint i w = (Raise IndexError, w).
Proof.
  intros H. unfold ease_joint, bind at 1, getitem, bind, attr, item.
  cbn [lget Target]. now rewrite (lookup_ge_None_2 _ _ H).
Qed.

Lemma ease_loop_short l1 k l2 : forall w,
  (length (target_positions (self w)) <= k)%nat ->
  exists w', for_each (l1 ++ k :: l2) ease_joint w = (Raise IndexError, w').
Proof.
  induction l1 as [|a l1 IH]; intros w Hk; simpl.
  - unfold bind. rewrite (ease_joint_short k w Hk). eauto.
  - unfold bind. destruct (ease_joint a w) as [[[]|e] w1] eqn:E.
    + apply IH. pose proof (ease_joint_keeps_targets a w) as Hkeep.
      rewrite E in Hkeep. cbn [snd] in Hkeep. now rewrite Hkeep.
    + rewrite (ease_joint_raises_only a _ _ _ E). eauto.
Qed.

Lemma update_positions_short w :
  (length (target_positions (self w)) < length (motors (self w)))%nat ->
  exists w', update_positions w = (Raise IndexError, w').
Proof.
  intros H. set (k := length (target_positions (self w))) in *.
  set (n := length (motors (self w))) in *.
  unfold update_positions, bind at 1, attr at 1. fold n. unfold for_range.
  assert (Hn : n = (k + S (n - S k))%nat) by lia.
  rewrite Hn, seq_app. cbn [seq Nat.add].
  destruct (ease_loop_short (seq 0 k) k (seq (S k) (n - S k)) w) as [w' E]; [lia|].
  unfold bind. rewrite E. eauto.
Qed.

(** X18.  The length of a stored preset is not checked when it is loaded: in
    normal mode [load_custom_preset] of a slot whose vector has fewer
    entries than there are joints returns true, and the next
    [update_positions], and with it the next round of the main loop,
    raises [IndexError]. *)
Theorem short_preset_breaks_update w slot preset :
  PASSIVITY_MODE (config w) = false ->
  0 <= slot < 4 ->
  Dict.get (custom_presets (self w)) (preset_name_of slot) = Some preset ->
  (length preset < length (motors (self w)))%nat ->
  let w1 := exec (load_custom_preset slot) w in
  eval (load_custom_preset slot) w = Ok true /\
  eval update_positions w1 = Raise IndexError /\
  eval update w1 = Raise IndexError.
Proof.
  intros Hp Hslot Hget Hlen w1.
  destruct (load_custom_preset_run w slot preset Hp Hslot Hget) as [E1 T1].
  fold w1 in T1.
  assert (M1 : motors (self w1) = motors (self w) /\ PASSIVITY_MODE (config w1) = false).
  { assert (Hk : keeps (fun w => (motors (self w), PASSIVITY_MODE (config w)))
                       (load_custom_preset slot)) by keeps_auto.
    specialize (Hk w). fold (exec (load_custom_preset slot) w) in Hk. fold w1 in Hk.
    injection Hk as Hm Hpm. now rewrite Hm, Hpm. }
  destruct M1 as [M1 P1].
  assert (Hshort : forall w2, target_positions (self w2) = target_positions (self w1) ->
             motors (self w2) = motors (self w1) ->
             eval update_positions w2 = Raise IndexError).
  { intros w2 Ht Hm. destruct (update_positions_short w2) as [w3 E].
    - now rewrite Ht, Hm, T1, M1, length_map.
    - unfold eval. now rewrite E. }
  split; [exact E1|]. split; [now apply Hshort|].
  destruct (process_feedback_returns w1) as [w2 E2].
  pose proof (process_feedback_rejected w1 (fun _ _ _ => or_introl P1)) as Hj.
  pose proof (process_feedback_keeps_motors w1) as Hm.
  unfold exec in Hj. rewrite E2 in Hj, Hm. cbn [snd] in Hj, Hm.
  unfold joint_lists in Hj. injection Hj as Ht _ _ _ _.
  specialize (Hshort w2 Ht Hm). unfold eval in *. unfold update.
  erewrite bind_ok by exact E2. exact Hshort.
Qed.

Example power_on_short_is_init :
  MotorController__init__ motors_table (Config_at_startup false) true
                          (JsonObject short_presets) = Ok power_on_short.
Proof. reflexivity. Qed.

Lemma short_preset_breaks_update_witness :
  let w1 := exec (load_custom_preset 0) power_on_short in
  eval (load_custom_preset 0) power_on_short = Ok true /\
  eval update_positions w1 = Raise IndexError /\
  eval update w1 = Raise IndexError.
Proof.
  apply (short_preset_breaks_update power_on_short 0 [512; 512; 380]).
  - reflexivity.
  - lia.
  - reflexivity.
  - vm_compute. lia.
Defined.

(** ** What is written to the port *)

Lemma position_commands_app out added :
  position_commands (out ++ added) = (position_commands out ++ position_commands added)%list.
Proof. unfold position_commands. apply List.filter_app. Qed.

Lemma keeps_send_other {X} (obs : list string -> X) command :
  (forall out, obs (out ++ [command])%list = obs out) ->
  keeps (fun w => obs (arduino_out (serial (self w)))) (send command).
Proof.
  intros H w. rewrite send_ok. cbn [snd]. rewrite written_self.
  cbn [serial set_serial arduino_out set_arduino_out].
  destruct (link_up w); [apply H|now rewrite app_nil_r].
Qed.

Lemma torque_command_tag flags out :
  position_commands (out ++ [torque_command flags]) = position_commands out.
Proof. rewrite position_commands_app. unfold torque_command. simpl. apply app_nil_r. Qed.

Lemma receive_keeps_positions raw :
  keeps (fun w => position_commands (arduino_out (serial (self w)))) (_receive_loop raw).
Proof. intros w. rewrite receive_one. cbn [snd]. now destruct (is_connected _). Qed.

Lemma await_positions_keeps_positions preset_name clock :
  keeps (fun w => position_commands (arduino_out (serial (self w))))
        (await_positions preset_name clock).
Proof.
  induction clock as [|arrived clock IH]; simpl.
  - keeps_auto.
  - apply keeps_bind; [apply keeps_for_each; intros; apply receive_keeps_positions|intros _].
    apply keeps_bind; [keeps_auto|intros _].
    apply keeps_bind; [keeps_auto|intros received].
    destruct received; [exact IH|]. keeps_auto. intros w. reflexivity.
Qed.

(** X19.  In passivity mode nothing that the operator, the reader thread or the
    main loop does gives the port a position command (tag 0): whatever
    step is taken from a world in passivity mode, the position commands
    written so far are the same afterwards. *)
Theorem passivity_sends_no_positions w w' :
  step w w' ->
  PASSIVITY_MODE (config w) = true ->
  position_commands (arduino_out (serial (self w')))
    = position_commands (arduino_out (serial (self w))).
Proof.
  intros Hstep Hp. destruct Hstep; unfold exec.
  - apply receive_keeps_positions.
  - destruct (toggle_all_torque_facts w) as (_ & _ & _ & _ & _ & _ & _ & _ & O & _).
    unfold exec in O. rewrite O, position_commands_app.
    destruct (link_up w); [|apply app_nil_r].
    unfold torque_command. simpl.
    destruct (negb (negb (all_torque_enabled (self w)))); simpl; apply app_nil_r.
  - revert w Hp. intros w _. revert w.
    change (keeps (fun w => position_commands (arduino_out (serial (self w))))
                  (toggle_torque motor_index)).
    keeps_auto. apply (keeps_send_other position_commands). intros out.
    apply torque_command_tag.
  - revert w Hp. intros w _. revert w.
    change (keeps (fun w => position_commands (arduino_out (serial (self w))))
                  (update_target motor_index direction step_size)). keeps_auto.
  - unfold send_control_command, bind, passivity_mode. now rewrite Hp.
  - now rewrite (load_default_preset_refused w Hp).
  - now rewrite (load_custom_preset_refused slot w Hp).
  - revert w Hp. intros w _. revert w.
    change (keeps (fun w => position_commands (arduino_out (serial (self w))))
                  (save_custom_preset slot clock)).
    unfold save_custom_preset. keeps_auto; try apply await_positions_keeps_positions.
    + intros w. reflexivity.
    + apply (keeps_send_other position_commands). intros out.
      rewrite position_commands_app. simpl. apply app_nil_r.
  - revert w Hp. intros w _. revert w.
    change (keeps (fun w => position_commands (arduino_out (serial (self w)))) update).
    keeps_auto.
Qed.

Lemma passivity_sends_no_positions_witness :
  position_commands
    (arduino_out (serial (self (exec (save_custom_preset 1 [[]; []]) hand_guided_synced))))
  = position_commands (arduino_out (serial (self hand_guided_synced))).
Proof.
  apply (passivity_sends_no_positions hand_guided_synced).
  - apply step_save.
  - vm_compute. reflexivity.
Defined.

Lemma int_of_float z : Py.int (Py.float z) = z.
Proof. unfold Py.int, Py.float, inject_Z. simpl. apply Z.quot_1_r. Qed.

Lemma ints_of_floats (l : list Z) : map Py.int (map Py.float l) = l.
Proof.
  induction l as [|z l IH]; simpl; [reflexivity|]. now rewrite int_of_float, IH.
Qed.

(** X20.  [shutdown] first asks for the feedback to stop.  In normal mode it
    then makes the default positions of the joint table the targets and
    sends them as the last command; in passivity mode it sends no position
    command and leaves the targets alone.  In both modes the link is down
    afterwards, and all of this reaches the port only if the link was
    up. *)
Theorem shutdown_parks_only_in_normal_mode w :
  let w' := exec shutdown w in
  let defaults := map default_pos (motors (self w)) in
  eval shutdown w = Ok tt /\
  link_up w' = false /\
  target_positions (self w') =
    (if PASSIVITY_MODE (config w) then target_positions (self w)
     else map Py.float defaults) /\
  arduino_out (serial (self w')) =
    (arduino_out (serial (self w)) ++
     if link_up w then
       "2,0,0,0,0,0,0,0*" ::
       (if PASSIVITY_MODE (config w) then [] else [control_command defaults])
     else [])%list.
Proof.
  intros w' defaults.
  set (w1 := written "2,0,0,0,0,0,0,0*" w).
  assert (C1 : config w1 = config w) by exact (written_config _ _).
  assert (S1 : self w1 = _) by exact (written_self _ _).
  assert (L1 : link_up w1 = link_up w) by exact (written_link_up _ _).
  assert (Hclose : forall w0, close w0 =
            (Ok tt, if DEV_MODE (config w0) then w0
                    else set_self (set_serial (set_is_connected false (serial (self w0)))
                                              (self w0)) w0)).
  { intros w0. unfold close. now destruct (DEV_MODE (config w0)). }
  assert (Hdown : forall w0, link_up (snd (close w0)) = false).
  { intros w0. rewrite Hclose. cbn [snd]. unfold link_up.
    destruct (DEV_MODE (config w0)) eqn:E; [now rewrite E|]. simpl. now rewrite E. }
  destruct (PASSIVITY_MODE (config w)) eqn:Hp.
  - assert (Hrun : shutdown w = close w1).
    { unfold shutdown. unfold bind at 1. rewrite send_ok. fold w1.
      unfold bind at 1, bind at 1, passivity_mode at 1. rewrite C1, Hp. reflexivity. }
    unfold w', eval, exec. rewrite Hrun. split; [now rewrite Hclose|].
    split; [apply Hdown|]. rewrite Hclose. cbn [snd].
    destruct (DEV_MODE (config w1)); simpl; rewrite S1; simpl; split; reflexivity.
  - set (w2 := set_self (set_target_positions
                           (map (fun m => Py.float (default_pos m)) (motors (self w1)))
                           (self w1)) w1).
    set (w3 := written (control_command (map Py.int (target_positions (self w2)))) w2).
    assert (Hrun : shutdown w = close w3).
    { unfold shutdown. unfold bind at 1. rewrite send_ok. fold w1.
      unfold bind at 1, bind at 1, passivity_mode at 1. rewrite C1, Hp. cbn [negb].
      unfold bind at 1, attr at 1. unfold bind at 1, assign at 1. fold w2.
      unfold send_control_command, bind at 1, passivity_mode at 1.
      assert (C2 : PASSIVITY_MODE (config w2) = false) by (unfold w2; simpl; now rewrite C1).
      rewrite C2. unfold bind at 1, attr at 1. unfold bind at 1. rewrite send_ok.
      reflexivity. }
    assert (S3 : self w3 = _) by exact (written_self _ _).
    assert (L2 : link_up w2 = link_up w) by exact L1.
    assert (T2 : target_positions (self w2) = map Py.float defaults).
    { unfold w2, defaults. simpl. rewrite S1. simpl. now rewrite map_map. }
    rewrite L2, T2, ints_of_floats in S3.
    unfold w', eval, exec. rewrite Hrun. split; [now rewrite Hclose|].
    split; [apply Hdown|]. rewrite Hclose. cbn [snd].
    assert (S2 : self w2 = set_target_positions (map Py.float defaults) (self w1)).
    { unfold w2, defaults. simpl. rewrite S1. simpl. now rewrite map_map. }
    rewrite S2, S1 in S3.
    destruct (DEV_MODE (config w3)); simpl; rewrite S3; simpl;
      (split; [reflexivity|]); destruct (link_up w); simpl;
      rewrite <- ?app_assoc; reflexivity.
Qed.

(** ** Jog keys *)

Lemma int_between a b t :
  (inject_Z a <= t)%Q -> (t <= inject_Z b)%Q -> a <= Py.int t <= b.
Proof.
  destruct t as [n d]. unfold Qle, Py.int, inject_Z. cbn [Qnum Qden].
  intros Ha Hb. rewrite Z.mul_1_r in *.
  pose proof (Z.quot_rem' n (Z.pos d)) as E.
  assert (Hd : 0 < Z.pos d) by lia.
  set (q := n ÷ Z.pos d) in *. set (r := Z.rem n (Z.pos d)) in *.
  assert (Hr : 0 <= n /\ 0 <= r < Z.pos d \/ n <= 0 /\ - Z.pos d < r <= 0).
  { destruct (Z_le_gt_dec 0 n) as [Hn|Hn].
    - left. split; [exact Hn|]. now apply Z.rem_bound_pos.
    - right. split; [lia|].
      pose proof (Z.rem_bound_pos (- n) (Z.pos d) ltac:(lia) Hd) as Hb'.
      rewrite Z.rem_opp_l' in Hb'. fold r in Hb'. lia. }
  clearbody q r. generalize dependent (Z.pos d). intros D Ha Hb E HD Hr.
  split.
  - destruct (Z_lt_le_dec q a) as [Hq|Hq]; [exfalso|exact Hq].
    assert (D * (q + 1) <= D * a) by (apply Z.mul_le_mono_nonneg_l; lia).
    destruct Hr as [[Hn Hr]|[Hn Hr]]; [lia|].
    assert (0 <= a \/ a <= 0) as [H0|H0] by lia; nia.
  - destruct (Z_lt_le_dec b q) as [Hq|Hq]; [exfalso|exact Hq].
    assert (D * (b + 1) <= D * q) by (apply Z.mul_le_mono_nonneg_l; lia).
    destruct Hr as [[Hn Hr]|[Hn Hr]]; [|lia].
    assert (0 <= b \/ b <= 0) as [H0|H0] by lia; nia.
Qed.

Lemma keeps_setitem_target_length i v :
  keeps (fun w => length (target_positions (self w))) (setitem Target i v).
Proof.
  intros w. unfold setitem, bind, attr, assign, raise.
  destruct (i <? _)%nat; [|reflexivity]. simpl. apply length_insert.
Qed.

Lemma update_target_keeps_length motor_index direction step_size :
  keeps (fun w => length (target_positions (self w)))
        (update_target motor_index direction step_size).
Proof. repeat first [apply keeps_setitem_target_length | keeps_step]. Qed.

Lemma update_target_keeps_range w motor_index direction step_size :
  0 <= step_size ->
  targets_in_range (self w) ->
  targets_in_range (self (exec (update_target motor_index direction step_size) w)).
Proof.
  intros Hstep H. unfold targets_in_range in *.
  pose proof (update_target_keeps_beside motor_index direction step_size w) as Hb.
  pose proof (update_target_keeps_length motor_index direction step_size w) as Hl.
  cbv beta in Hl. unfold exec.
  set (w1 := snd _) in *.
  assert (Hm : motors (self w1) = motors (self w)) by (unfold beside_jog in Hb; congruence).
  rewrite Hm.
  apply Forall2_same_length_lookup. apply Forall2_same_length_lookup in H as [Hlen H].
  split; [congruence|]. intros i m t Hi Ht.
  destruct (lookup_lt_is_Some_2 (target_positions (self w)) i) as [t0 Ht0].
  { rewrite <- Hlen. eapply lookup_lt_Some, Hi. }
  destruct (update_target_in_range w motor_index direction step_size i Hstep)
    as (m' & t' & Hm' & Ht' & Hr).
  { exists m, t0. split; [exact Hi|]. split; [exact Ht0|]. now apply (H i). }
  unfold exec in Hm', Ht'. fold w1 in Hm', Ht'. rewrite Hm in Hm'. congruence.
Qed.

Lemma targets_as_positions c :
  targets_in_range c -> positions_in_range (motors c) (map Py.int (target_positions c)).
Proof.
  unfold targets_in_range, positions_in_range. intros H.
  induction H as [|m t ms ts [Hlo Hhi] _ IH]; simpl; constructor; [|exact IH].
  now apply int_between.
Qed.

(** X21.  A motor key in [handle_events] calls [update_target] and, if that
    returned true, [send_control_command].  If every target lies in the
    range of its joint and the step is not negative, the targets lie in
    their ranges afterwards as well, and the port is given nothing or one
    command more: the position command of the new targets, each value of
    which lies between [min_val] and [max_val] of its joint. *)
Theorem jog_key_command_in_range w motor_index direction step_size :
  0 <= step_size ->
  targets_in_range (self w) ->
  let w' := exec (jog_key motor_index direction step_size) w in
  let positions := map Py.int (target_positions (self w')) in
  targets_in_range (self w') /\
  positions_in_range (motors (self w)) positions /\
  (arduino_out (serial (self w')) = arduino_out (serial (self w)) \/
   arduino_out (serial (self w')) =
     (arduino_out (serial (self w)) ++ [control_command positions])%list).
Proof.
  intros Hstep H w' positions.
  pose proof (update_target_keeps_range w motor_index direction step_size Hstep H) as H1.
  pose proof (update_target_keeps_beside motor_index direction step_size w) as Hb.
  unfold exec in H1.
  assert (Hrun : w' = snd (jog_key motor_index direction step_size w)) by reflexivity.
  clearbody w'. unfold jog_key, bind in Hrun.
  destruct (update_target motor_index direction step_size w) as [[moved|e] w1] eqn:E;
    cbn [snd] in H1, Hb.
  assert (Hm : motors (self w1) = motors (self w)) by (unfold beside_jog in Hb; congruence).
  assert (Hs : serial (self w1) = serial (self w)) by (unfold beside_jog in Hb; congruence).
  2: assert (Hm : motors (self w1) = motors (self w)) by (unfold beside_jog in Hb; congruence).
  2: assert (Hs : serial (self w1) = serial (self w)) by (unfold beside_jog in Hb; congruence).
  - destruct moved.
    + unfold send_control_command, bind, passivity_mode, attr in Hrun.
      destruct (PASSIVITY_MODE (config w1)).
      * cbn [snd ret] in Hrun. subst w'. unfold positions.
        split; [exact H1|]. split; [rewrite <- Hm; now apply targets_as_positions|].
        left. now rewrite Hs.
      * rewrite send_ok in Hrun. cbn [snd ret] in Hrun.
        assert (S' : self w' = _) by (rewrite Hrun; exact (written_self _ _)).
        assert (T' : target_positions (self w') = target_positions (self w1))
          by now rewrite S'.
        assert (M' : motors (self w') = motors (self w1)) by now rewrite S'.
        unfold positions. rewrite T'.
        split; [unfold targets_in_range; rewrite T', M'; exact H1|].
        split; [rewrite <- Hm; now apply targets_as_positions|].
        rewrite S'. cbn [serial set_serial arduino_out set_arduino_out]. rewrite Hs.
        destruct (link_up w1); [now right|left; apply app_nil_r].
    + cbn [snd ret] in Hrun. subst w'. unfold positions.
      split; [exact H1|]. split; [rewrite <- Hm; now apply targets_as_positions|].
      left. now rewrite Hs.
  - cbn [snd] in Hrun. subst w'. unfold positions.
    split; [exact H1|]. split; [rewrite <- Hm; now apply targets_as_positions|].
    left. now rewrite Hs.
Qed.

Lemma jog_key_command_in_range_witness :
  let w' := exec (jog_key 0 "increase" 5) power_on in
  let positions := map Py.int (target_positions (self w')) in
  targets_in_range (self w') /\
  positions_in_range (motors (self power_on)) positions /\
  (arduino_out (serial (self w')) = arduino_out (serial (self power_on)) \/
   arduino_out (serial (self w')) =
     (arduino_out (serial (self power_on)) ++ [control_command positions])%list).
Proof.
  apply (jog_key_command_in_range power_on 0 "increase" 5).
  - lia.
  - vm_compute. repeat (constructor; [split; discriminate|]). constructor.
Defined.

(** ** A link that is down *)

Lemma send_keeps_down_link command : keeps down_link (send command).
Proof.
  intros w. rewrite send_ok. cbn [snd]. unfold down_link.
  rewrite written_link_up, written_config, written_self.
  cbn [serial set_serial arduino_out set_arduino_out is_connected].
  destruct (link_up w) eqn:E; [reflexivity|]. now rewrite app_nil_r.
Qed.

Lemma receive_keeps_down_link raw : keeps down_link (_receive_loop raw).
Proof. intros w. rewrite receive_one. cbn [snd]. now destruct (is_connected _) eqn:E. Qed.

Ltac keeps_down_link :=
  repeat first
    [ apply send_keeps_down_link | apply receive_keeps_down_link | keeps_step
    | intros ?; reflexivity ].

Lemma await_positions_keeps_down_link preset_name clock :
  keeps down_link (await_positions preset_name clock).
Proof.
  induction clock as [|arrived clock IH]; simpl.
  - keeps_down_link.
  - apply keeps_bind; [keeps_down_link|intros _].
    apply keeps_bind; [keeps_down_link|intros _].
    apply keeps_bind; [keeps_down_link|intros received].
    destruct received; [exact IH|]. keeps_down_link.
Qed.

Lemma step_keeps_down_link w w' : step w w' -> down_link w' = down_link w.
Proof.
  intros Hstep. destruct Hstep; unfold exec; revert w;
    match goal with |- forall w, down_link (snd (?m w)) = _ => change (keeps down_link m) end.
  - apply receive_keeps_down_link.
  - unfold toggle_all_torque. keeps_down_link.
  - keeps_down_link.
  - keeps_down_link.
  - keeps_down_link.
  - keeps_down_link.
  - keeps_down_link.
  - unfold save_custom_preset. keeps_down_link; apply await_positions_keeps_down_link.
  - keeps_down_link.
Qed.

(** X22.  A link that is down, because of [DEV_MODE] or because the port did
    not open or was closed, stays down and the port is given nothing:
    whatever the operator, the reader thread and the main loop do from
    then on, no command is written. *)
Theorem link_down_nothing_written w0 w :
  link_up w0 = false ->
  reachable w0 w ->
  link_up w = false /\
  arduino_out (serial (self w)) = arduino_out (serial (self w0)).
Proof.
  intros Hdown Hreach.
  assert (H : down_link w = down_link w0).
  { induction Hreach as [|w w' _ IH Hstep]; [reflexivity|].
    rewrite <- IH. now apply step_keeps_down_link. }
  unfold down_link in H. injection H as Hdev Hcon Hout.
  assert (Hl : link_up w = false) by (unfold link_up in *; now rewrite Hdev, Hcon).
  rewrite Hl, Hdown in Hout. now split.
Qed.

Lemma link_down_nothing_written_witness :
  let w0 := exec close power_on in
  let w := exec send_control_command (exec (update_target 0 "increase" 5) w0) in
  link_up w = false /\
  arduino_out (serial (self w)) = arduino_out (serial (self w0)).
Proof.
  apply (link_down_nothing_written (exec close power_on)).
  - vm_compute. reflexivity.
  - eapply reach_step; [eapply reach_step; [apply reach_start|apply step_jog]|apply step_send].
Defined.

(** ** Loading a preset *)

Lemma load_run w preset :
  PASSIVITY_MODE (config w) = false ->
  (assign (set_target_positions (map Py.float preset)) ;; send_control_command ;; ret true) w =
    (Ok true,
     written (control_command preset)
       (set_self (set_target_positions (map Py.float preset) (self w)) w)).
Proof.
  intros Hp. unfold bind at 1, assign at 1.
  unfold send_control_command. unfold bind at 1, bind at 1, passivity_mode at 1.
  cbn [config set_self]. rewrite Hp.
  unfold bind at 1, attr at 1. unfold bind at 1. rewrite send_ok.
  cbn [self set_self target_positions set_target_positions]. now rewrite ints_of_floats.
Qed.

(** X23.  In normal mode [load_default_preset] returns true, makes the default
    preset the targets and hands the port, if the link is up, one command:
    the position command of the integers of the preset.
    [load_custom_preset] does the same with the preset stored under the
    name of a slot from 0 to 3.  Neither moves the displayed or the current
    positions, nor looks at the ranges of the joints. *)
Theorem load_sends_the_preset w :
  PASSIVITY_MODE (config w) = false ->
  let loaded (m : M bool) (preset : list Z) :=
    eval m w = Ok true /\
    target_positions (self (exec m w)) = map Py.float preset /\
    arduino_out (serial (self (exec m w))) =
      (arduino_out (serial (self w)) ++
       if link_up w then [control_command preset] else [])%list /\
    display_positions (self (exec m w)) = display_positions (self w) /\
    current_positions (self (exec m w)) = current_positions (self w) in
  loaded load_default_preset (default_preset (self w)) /\
  forall slot preset,
    0 <= slot < 4 ->
    Dict.get (custom_presets (self w)) (preset_name_of slot) = Some preset ->
    loaded (load_custom_preset slot) preset.
Proof.
  intros Hp loaded.
  assert (Hgo : forall (m : M bool) preset,
            m w = (Ok true,
                   written (control_command preset)
                     (set_self (set_target_positions (map Py.float preset) (self w)) w)) ->
            loaded m preset).
  { intros m preset Hrun. unfold loaded, eval, exec. rewrite Hrun. cbn [fst snd].
    rewrite written_self. simpl. repeat split; reflexivity. }
  split.
  - apply Hgo. unfold load_default_preset.
    unfold bind at 1, passivity_mode at 1. rewrite Hp.
    unfold bind at 1, attr at 1. now apply load_run.
  - intros slot preset Hslot Hget. apply Hgo.
    assert (Hs : (0 <=? slot) && (slot <? 4) = true).
    { apply andb_true_intro. split; [apply Z.leb_le|apply Z.ltb_lt]; lia. }
    unfold load_custom_preset.
    unfold bind at 1, passivity_mode at 1. rewrite Hp, Hs.
    unfold bind at 1, attr at 1. rewrite Hget. now apply load_run.
Qed.

Lemma load_sends_the_preset_witness :
  eval load_default_preset power_on = Ok true /\
  arduino_out (serial (self (exec load_default_preset power_on))) =
    (arduino_out (serial (self power_on)) ++ ["0,512,512,380,800,700,512,512*"])%list /\
  eval (load_custom_preset 1) power_on = Ok true.
Proof.
  destruct (load_sends_the_preset power_on) as [(E1 & _ & O1 & _) Hcustom].
  - reflexivity.
  - destruct (Hcustom 1 [512; 512; 380; 800; 700; 512; 512]) as (E2 & _).
    + lia.
    + vm_compute. reflexivity.
    + split; [exact E1|]. split; [|exact E2].
      rewrite O1. vm_compute. reflexivity.
Defined.

(** X24.  [load_custom_preset] returns false and changes nothing when the slot
    is outside 0..3 or when no preset is stored under the name of the
    slot, in either mode. *)
Theorem load_custom_preset_missing w slot :
  slot < 0 \/ 4 <= slot \/
  Dict.get (custom_presets (self w)) (preset_name_of slot) = None ->
  eval (load_custom_preset slot) w = Ok false /\
  exec (load_custom_preset slot) w = w.
Proof.
  intros H.
  assert (Hrun : load_custom_preset slot w = (Ok false, w)).
  { unfold load_custom_preset. unfold bind at 1, passivity_mode at 1.
    destruct (PASSIVITY_MODE (config w)); [reflexivity|].
    destruct ((0 <=? slot) && (slot <? 4)) eqn:Hs; [|reflexivity].
    apply andb_prop in Hs as [H0 H4]. apply Z.leb_le in H0. apply Z.ltb_lt in H4.
    destruct H as [H|[H|H]]; [lia|lia|].
    unfold bind at 1, attr at 1. now rewrite H. }
  unfold eval, exec. rewrite Hrun. split; reflexivity.
Qed.

Lemma load_custom_preset_missing_witness :
  eval (load_custom_preset 0) power_on_renamed = Ok false /\
  exec (load_custom_preset 0) power_on_renamed = power_on_renamed.
Proof.
  apply (load_custom_preset_missing power_on_renamed 0).
  right. right. vm_compute. reflexivity.
Defined.
